(** * Mortgage statement parser: field extraction and rendering

    A shallow embedding of [mortgage_parser.py] (class
    [MortgageStatementParser]) and of the Python built-ins its methods call,
    followed by the properties of the extraction pipeline.

    Conventions of the embedding:
    - a Python [str] is a list of characters; characters are the 256 code
      points of Latin-1 (Rocq's [ascii]);
    - a Python [float] is an IEEE-754 binary64 value, as [spec_float] with
      precision 53 and exponent bound 1024; reading and printing are the
      correctly rounded conversions Python performs;
    - a Python [dict] is an association list in insertion order whose lookup
      takes the first binding of a key;
    - a Python exception is the [Raise] outcome of the [result] type;
    - an [int] is printed in full: the limit recent interpreters put on the
      number of digits of an integer turned into text is not modelled. *)

From Stdlib Require Import ZArith NArith Ascii String Bool Lia DecimalPos List.
From Stdlib Require Import Floats.SpecFloat.
Import ListNotations.

Set Warnings "-register-all".
Local Open Scope Z_scope.

(* ================================================================== *)
(** * Python strings *)
(* ================================================================== *)

Module PyStr.

Definition str := list ascii.

(** String literals of the source are written [lit "..."]. *)
Definition lit (s : string) : str := list_ascii_of_string s.
Arguments lit s%_string.

Definition code (c : ascii) : N := N_of_ascii c.

Definition chr_eqb (a b : ascii) : bool := Ascii.eqb a b.
Arguments chr_eqb (a b)%_char.

Fixpoint str_eqb (a b : str) : bool :=
  match a, b with
  | [], [] => true
  | x :: a', y :: b' => chr_eqb x y && str_eqb a' b'
  | _, _ => false
  end.

Definition is_digit (c : ascii) : bool :=
  (48 <=? code c)%N && (code c <=? 57)%N.

(** [str.isspace] on one character, which is also the regex class [\s] and
    the white space [float] and [str.strip] remove: TAB..CR, FS..US, SPACE,
    NEL and NBSP. *)
Definition is_space (c : ascii) : bool :=
  let n := code c in
  ((9 <=? n)%N && (n <=? 13)%N) || ((28 <=? n)%N && (n <=? 32)%N)
  || (n =? 133)%N || (n =? 160)%N.

Definition is_upper (c : ascii) : bool :=
  let n := code c in
  ((65 <=? n)%N && (n <=? 90)%N)
  || ((192 <=? n)%N && (n <=? 222)%N && negb (n =? 215)%N).

(** Lower-case letters, including the three (micro sign, sharp s, y with
    diaeresis) and the two ordinal indicators that have no Latin-1 capital. *)
Definition is_lower (c : ascii) : bool :=
  let n := code c in
  ((97 <=? n)%N && (n <=? 122)%N)
  || ((223 <=? n)%N && (n <=? 255)%N && negb (n =? 247)%N)
  || (n =? 170)%N || (n =? 181)%N || (n =? 186)%N.

Definition lower_chr (c : ascii) : ascii :=
  if is_upper c then ascii_of_N (code c + 32) else c.

(** [s.lower()] *)
Definition lower (s : str) : str := map lower_chr s.

Fixpoint lstrip (s : str) : str :=
  match s with
  | c :: s' => if is_space c then lstrip s' else s
  | [] => []
  end.

Definition rstrip (s : str) : str := rev (lstrip (rev s)).

(** [s.strip()] *)
Definition strip (s : str) : str := rstrip (lstrip s).

Fixpoint starts_with (p s : str) : bool :=
  match p, s with
  | [], _ => true
  | a :: p', b :: s' => chr_eqb a b && starts_with p' s'
  | _ :: _, [] => false
  end.

(** [needle in hay] *)
Fixpoint contains (needle hay : str) : bool :=
  starts_with needle hay ||
  match hay with
  | [] => false
  | _ :: hay' => contains needle hay'
  end.

(** [s.replace(old, new)] for a one-character [old], the only form the
    source uses. *)
Fixpoint replace_chr (old : ascii) (new : str) (s : str) : str :=
  match s with
  | [] => []
  | c :: s' =>
      if chr_eqb c old then new ++ replace_chr old new s'
      else c :: replace_chr old new s'
  end.

End PyStr.
Export PyStr.

(* ================================================================== *)
(** * Python numbers: [int], [float], reading and printing *)
(* ================================================================== *)

Module PyNum.

Definition prec : Z := 53.
Definition emax : Z := 1024.

Definition float := spec_float.

Definition float_eqb (a b : float) : bool :=
  match a, b with
  | S754_zero s, S754_zero t => Bool.eqb s t
  | S754_infinity s, S754_infinity t => Bool.eqb s t
  | S754_nan, S754_nan => true
  | S754_finite s m e, S754_finite t n f =>
      Bool.eqb s t && Pos.eqb m n && Z.eqb e f
  | _, _ => false
  end.

(** ** Decimal digits *)

Definition digit_chr (d : N) : ascii := ascii_of_N (48 + d).

Fixpoint uint_to_str (u : Decimal.uint) : str :=
  match u with
  | Decimal.Nil => []
  | Decimal.D0 u' => digit_chr 0 :: uint_to_str u'
  | Decimal.D1 u' => digit_chr 1 :: uint_to_str u'
  | Decimal.D2 u' => digit_chr 2 :: uint_to_str u'
  | Decimal.D3 u' => digit_chr 3 :: uint_to_str u'
  | Decimal.D4 u' => digit_chr 4 :: uint_to_str u'
  | Decimal.D5 u' => digit_chr 5 :: uint_to_str u'
  | Decimal.D6 u' => digit_chr 6 :: uint_to_str u'
  | Decimal.D7 u' => digit_chr 7 :: uint_to_str u'
  | Decimal.D8 u' => digit_chr 8 :: uint_to_str u'
  | Decimal.D9 u' => digit_chr 9 :: uint_to_str u'
  end.

(** The decimal digits of a natural number, most significant first;
    ["0"] for zero. *)
Definition digits_of_N (n : N) : str := uint_to_str (N.to_uint n).

Definition ndigits (n : N) : Z := Z.of_nat (length (digits_of_N n)).

(** The value of a string of decimal digits. *)
Definition digits_value (ds : str) : N :=
  fold_left (fun acc c => (10 * acc + (code c - 48))%N) ds 0%N.

(** [str(n)] for an [int] *)
Definition str_of_Z (z : Z) : str :=
  match z with
  | Z0 => lit "0"
  | Zpos p => digits_of_N (Npos p)
  | Zneg p => lit "-" ++ digits_of_N (Npos p)
  end.

(** ** Decimal to binary64 *)

(** The binary64 value nearest to [(-1)^neg * m * 10^e10], ties to even.
    Beyond 10^400 the value is infinite and below 10^-400 it is zero
    whatever the digits, so the power of ten is not computed there. *)
Definition float_of_dec (neg : bool) (m : N) (e10 : Z) : float :=
  match m with
  | N0 => S754_zero neg
  | Npos p =>
      let mag := ndigits m + e10 in
      if 400 <? mag then S754_infinity neg
      else if mag <? -400 then S754_zero neg
      else if 0 <=? e10 then
        binary_round prec emax neg (p * Z.to_pos (10 ^ e10)) 0
      else
        SFdiv prec emax (S754_finite neg p 0)
              (S754_finite false (Z.to_pos (10 ^ (- e10))) 0)
  end.

(** [float(n)] for an [int]: [None] is [OverflowError]. *)
Definition float_of_Z (z : Z) : option float :=
  match binary_normalize prec emax z 0 false with
  | S754_infinity _ => None
  | f => Some f
  end.

(** ** [float(s)] for a string *)

Fixpoint span_digits (s : str) : str * str :=
  match s with
  | c :: s' =>
      if is_digit c then let (ds, r) := span_digits s' in (c :: ds, r)
      else ([], s)
  | [] => ([], [])
  end.

(** An underscore is accepted only between two digits. *)
Fixpoint underscores_ok (prev : option ascii) (s : str) : bool :=
  match s with
  | [] => match prev with
          | Some p => negb (chr_eqb p "_")
          | None => true
          end
  | c :: s' =>
      (if chr_eqb c "_" then
         match prev with Some p => is_digit p | None => false end
       else
         match prev with
         | Some p => if chr_eqb p "_" then is_digit c else true
         | None => true
         end)
      && underscores_ok (Some c) s'
  end.

(** The exponent part: [e] or [E], an optional sign, at least one digit,
    and nothing after it. *)
Definition parse_exponent (s : str) : option Z :=
  match s with
  | [] => Some 0
  | c :: r =>
      if chr_eqb c "e" || chr_eqb c "E" then
        let '(eneg, r') :=
          match r with
          | "-"%char :: t => (true, t)
          | "+"%char :: t => (false, t)
          | _ => (false, r)
          end in
        let (ed, rest) := span_digits r' in
        match ed, rest with
        | _ :: _, [] =>
            let v := Z.of_N (digits_value ed) in
            Some (if eneg then - v else v)
        | _, _ => None
        end
      else None
  end.

(** An unsigned decimal literal: digits, an optional point, digits (at
    least one digit in all), an optional exponent.  The result is the
    integer of all mantissa digits and the power of ten it is scaled by. *)
Definition parse_decimal (s : str) : option (N * Z) :=
  let (ip, r1) := span_digits s in
  let (fp, r2) :=
    match r1 with
    | "."%char :: r => span_digits r
    | _ => ([], r1)
    end in
  match ip ++ fp with
  | [] => None
  | ds =>
      match parse_exponent r2 with
      | Some e => Some (digits_value ds, e - Z.of_nat (length fp))
      | None => None
      end
  end.

Definition split_sign (s : str) : bool * str :=
  match s with
  | "-"%char :: b => (true, b)
  | "+"%char :: b => (false, b)
  | _ => (false, s)
  end.

(** [float(s)]; [None] is [ValueError]. *)
Definition float_of_str (s : str) : option float :=
  let t := strip s in
  if underscores_ok None t then
    let (neg, body) := split_sign (replace_chr "_" [] t) in
    match parse_decimal body with
    | Some (m, e) => Some (float_of_dec neg m e)
    | None =>
        let lb := lower body in
        if str_eqb lb (lit "inf") || str_eqb lb (lit "infinity")
        then Some (S754_infinity neg)
        else if str_eqb lb (lit "nan") then Some S754_nan
        else None
    end
  else None.

(** ** [repr] of a [float]: the shortest decimal that reads back *)

(** [floor (log10 (n / d))] for positive [n] and [d]. *)
Definition ilog10 (n d : Z) : Z :=
  if d <=? n then ndigits (Z.to_N (n / d)) - 1
  else
    let k := ndigits (Z.to_N (d / n)) in
    if n * 10 ^ (k - 1) =? d then - (k - 1) else - k.

(** The positive finite value [m * 2^e] as a fraction. *)
Definition fraction_of (m : positive) (e : Z) : Z * Z :=
  if 0 <=? e then (Zpos m * 2 ^ e, 1) else (Zpos m, 2 ^ (- e)).

(** With [k] significant digits: the decimal just below [m * 2^e], as an
    integer scaled by [10^p], and the remainder that locates the value
    between it and the next one. *)
Definition scaled_digits (m : positive) (e : Z) (k : Z) : Z * Z * Z * Z :=
  let (n, d) := fraction_of m e in
  let p := ilog10 n d - k + 1 in
  let (num, den) := if 0 <=? p then (n, d * 10 ^ p) else (n * 10 ^ (- p), d) in
  (num / den, num mod den, den, p).

Definition nearest_of (lo r den : Z) : Z :=
  match 2 * r ?= den with
  | Lt => lo
  | Gt => lo + 1
  | Eq => if Z.even lo then lo else lo + 1
  end.

(** Tries [k], [k+1], ... significant digits and keeps the first count at
    which a decimal reads back as [m * 2^e], the nearest one when both
    neighbours do; with 17 digits the nearest decimal always reads back. *)
Fixpoint shortest_digits (more : nat) (k : Z) (m : positive) (e : Z) : Z * Z :=
  let '(lo, r, den, p) := scaled_digits m e k in
  let x := S754_finite false m e in
  match more with
  | O => (nearest_of lo r den, p)
  | S more' =>
      let back c := float_eqb (float_of_dec false (Z.to_N c) p) x in
      match back lo, back (lo + 1) with
      | true, true => (nearest_of lo r den, p)
      | true, false => (lo, p)
      | false, true => (lo + 1, p)
      | false, false => shortest_digits more' (k + 1) m e
      end
  end.

Fixpoint strip_zeros_rev (s : str) : str :=
  match s with
  | c :: s' => if chr_eqb c "0" then strip_zeros_rev s' else s
  | [] => []
  end.

Definition zeros (n : Z) : str := repeat "0"%char (Z.to_nat n).

(** Layout of [repr]: positional when the decimal point falls within
    [-4 < decpt <= 16], scientific with a two-digit exponent otherwise. *)
Definition layout_repr (ds : str) (decpt : Z) : str :=
  let n := Z.of_nat (length ds) in
  if (decpt <=? -4) || (16 <? decpt) then
    let ex := decpt - 1 in
    let exd := digits_of_N (Z.to_N (Z.abs ex)) in
    firstn 1 ds
    ++ (match skipn 1 ds with [] => [] | t => lit "." ++ t end)
    ++ lit "e" ++ (if ex <? 0 then lit "-" else lit "+")
    ++ (if Z.of_nat (length exd) <? 2 then lit "0" else []) ++ exd
  else if decpt <=? 0 then lit "0." ++ zeros (- decpt) ++ ds
  else if n <=? decpt then ds ++ zeros (decpt - n) ++ lit ".0"
  else firstn (Z.to_nat decpt) ds ++ lit "." ++ skipn (Z.to_nat decpt) ds.

(** [repr(x)], which is also [str(x)] and [format(x, '')]. *)
Definition repr_float (x : float) : str :=
  match x with
  | S754_nan => lit "nan"
  | S754_infinity s => if s then lit "-inf" else lit "inf"
  | S754_zero s => if s then lit "-0.0" else lit "0.0"
  | S754_finite s m e =>
      let (c, p) := shortest_digits 16 1 m e in
      let all := digits_of_N (Z.to_N c) in
      let ds := rev (strip_zeros_rev (rev all)) in
      (if s then lit "-" else []) ++ layout_repr ds (Z.of_nat (length all) + p)
  end.

(** ** [format(x, ',.2f')] *)

(** A comma before every group of three digits counted from the right;
    the argument is the digit string reversed. *)
Fixpoint group3_rev (s : str) : str :=
  match s with
  | a :: b :: c :: ((_ :: _) as rest) => a :: b :: c :: ","%char :: group3_rev rest
  | _ => s
  end.

Definition group3 (ds : str) : str := rev (group3_rev (rev ds)).

(** [round (m * 2^e * 100)] to an integer, ties to even. *)
Definition hundredths (m : positive) (e : Z) : Z :=
  let (n, d) := fraction_of m e in
  nearest_of ((100 * n) / d) ((100 * n) mod d) d.

Definition two_digits (n : Z) : str :=
  [digit_chr (Z.to_N (n / 10)); digit_chr (Z.to_N (n mod 10))].

Definition format_comma_2f (x : float) : str :=
  match x with
  | S754_nan => lit "nan"
  | S754_infinity s => if s then lit "-inf" else lit "inf"
  | S754_zero s => (if s then lit "-" else []) ++ lit "0.00"
  | S754_finite s m e =>
      let h := hundredths m e in
      (if s then lit "-" else [])
      ++ group3 (digits_of_N (Z.to_N (h / 100)))
      ++ lit "." ++ two_digits (h mod 100)
  end.

(** [x > 0] for a float *)
Definition float_pos (x : float) : bool :=
  SFltb (S754_zero false) x.

End PyNum.
Export PyNum.

(* ================================================================== *)
(** * Python values, exceptions and the built-ins the parser calls *)
(* ================================================================== *)

Module Py.

Inductive exn : Type :=
  | AttributeError
  | TypeError
  | ValueError
  | OverflowError.

(** The outcome of evaluating an expression: a value, or an exception that
    propagates to the caller. *)
Inductive result (A : Type) : Type :=
  | Ok (a : A)
  | Raise (e : exn).
Arguments Ok {A} a.
Arguments Raise {A} e.

Definition bind {A B : Type} (r : result A) (f : A -> result B) : result B :=
  match r with
  | Ok a => f a
  | Raise e => Raise e
  end.

(** The values a decoded JSON document is made of. *)
Inductive pyval : Type :=
  | VNone
  | VBool (b : bool)
  | VInt (z : Z)
  | VFloat (f : float)
  | VStr (s : str)
  | VList (l : list pyval)
  | VDict (d : list (str * pyval)).

Definition dict := list (str * pyval).

(** [bool(v)] *)
Definition truthy (v : pyval) : bool :=
  match v with
  | VNone => false
  | VBool b => b
  | VInt z => negb (z =? 0)
  | VFloat (S754_zero _) => false
  | VFloat _ => true
  | VStr s => match s with [] => false | _ => true end
  | VList l => match l with [] => false | _ => true end
  | VDict d => match d with [] => false | _ => true end
  end.

Fixpoint lookup (k : str) (d : dict) : option pyval :=
  match d with
  | [] => None
  | (k', v) :: d' => if str_eqb k k' then Some v else lookup k d'
  end.

(** [d.get(k, default)] on a dict *)
Definition dict_get (d : dict) (k : str) (default : pyval) : pyval :=
  match lookup k d with
  | Some v => v
  | None => default
  end.

(** [v.get(k, default)] on any value: only a dict has the method. *)
Definition py_get (v : pyval) (k : str) (default : pyval) : result pyval :=
  match v with
  | VDict d => Ok (dict_get d k default)
  | _ => Raise AttributeError
  end.

(** [v.lower()]: only a string has the method. *)
Definition py_lower (v : pyval) : result str :=
  match v with
  | VStr s => Ok (lower s)
  | _ => Raise AttributeError
  end.

(** The items a [for] loop over [v] visits. *)
Definition py_iter (v : pyval) : result (list pyval) :=
  match v with
  | VList l => Ok l
  | VStr s => Ok (map (fun c => VStr [c]) s)
  | VDict d => Ok (map (fun kv => VStr (fst kv)) d)
  | _ => Raise TypeError
  end.

(** ** [str] and [repr] *)

Definition hex_digit (n : N) : ascii :=
  if (n <? 10)%N then ascii_of_N (48 + n) else ascii_of_N (87 + n).

Definition printable (c : ascii) : bool :=
  let n := code c in
  ((32 <=? n)%N && (n <? 127)%N) || ((161 <=? n)%N && negb (n =? 173)%N).

Definition escape_chr (quote : ascii) (c : ascii) : str :=
  if chr_eqb c quote || chr_eqb c "\" then ["\"%char; c]
  else if (code c =? 9)%N then lit "\t"
  else if (code c =? 10)%N then lit "\n"
  else if (code c =? 13)%N then lit "\r"
  else if printable c then [c]
  else lit "\x" ++ [hex_digit (code c / 16); hex_digit (code c mod 16)].

(** [repr(s)] for a string: single quotes unless the text has a single
    quote and no double quote. *)
Definition repr_str (s : str) : str :=
  let quote : ascii :=
    if contains (lit "'") s && negb (contains [ascii_of_N 34] s)
    then ascii_of_N 34 else "'"%char in
  quote :: flat_map (escape_chr quote) s ++ [quote].

Fixpoint join (sep : str) (parts : list str) : str :=
  match parts with
  | [] => []
  | [p] => p
  | p :: rest => p ++ sep ++ join sep rest
  end.

Fixpoint py_repr (v : pyval) : str :=
  match v with
  | VNone => lit "None"
  | VBool b => if b then lit "True" else lit "False"
  | VInt z => str_of_Z z
  | VFloat f => repr_float f
  | VStr s => repr_str s
  | VList l => lit "[" ++ join (lit ", ") (map py_repr l) ++ lit "]"
  | VDict d =>
      lit "{"
      ++ join (lit ", ")
           (map (fun kv => repr_str (fst kv) ++ lit ": " ++ py_repr (snd kv)) d)
      ++ lit "}"
  end.

(** [str(v)], which is also how an f-string renders [{v}]. *)
Definition py_str (v : pyval) : str :=
  match v with
  | VStr s => s
  | _ => py_repr v
  end.

(** ** Numbers *)

(** [float(s)] on a string *)
Definition py_float (s : str) : result float :=
  match float_of_str s with
  | Some f => Ok f
  | None => Raise ValueError
  end.

(** [v > 0] *)
Definition py_gt_zero (v : pyval) : result bool :=
  match v with
  | VBool b => Ok b
  | VInt z => Ok (0 <? z)
  | VFloat f => Ok (float_pos f)
  | _ => Raise TypeError
  end.

(** [f"{v:,.2f}"] *)
Definition py_format_comma_2f (v : pyval) : result str :=
  match v with
  | VFloat f => Ok (format_comma_2f f)
  | VInt z =>
      match float_of_Z z with
      | Some f => Ok (format_comma_2f f)
      | None => Raise OverflowError
      end
  | VBool b => Ok (if b then lit "1.00" else lit "0.00")
  | VStr _ => Raise ValueError
  | _ => Raise TypeError
  end.

(** ** [str.title] *)

(** The capital of a lower-case letter.  The three letters whose capital
    lies outside Latin-1 (micro sign, sharp s, y with diaeresis) are kept
    as they are. *)
Definition upper_chr (c : ascii) : ascii :=
  let n := code c in
  if ((97 <=? n)%N && (n <=? 122)%N)
     || ((224 <=? n)%N && (n <=? 254)%N && negb (n =? 247)%N)
  then ascii_of_N (n - 32) else c.

Fixpoint title_from (prev_cased : bool) (s : str) : str :=
  match s with
  | [] => []
  | c :: s' =>
      (if prev_cased then lower_chr c else upper_chr c)
      :: title_from (is_upper c || is_lower c) s'
  end.

(** [s.title()] *)
Definition title (s : str) : str := title_from false s.

End Py.
Export Py.

Declare Scope py_scope.
Notation "x <- e ;; k" := (bind e (fun x => k))
  (at level 61, e at next level, right associativity) : py_scope.

(* ================================================================== *)
(** * Regular expressions: the fragment of [re] the parser uses *)
(* ================================================================== *)

Module Re.

(** Character classes. *)
Inductive cls : Type :=
  | CChr (c : ascii)          (* a literal character in a set *)
  | CDigit                    (* \d *)
  | CSpace                    (* \s *)
  | CUnion (a b : cls)        (* [ab] *)
  | CNot (a : cls).           (* [^a] *)

Fixpoint cls_match (k : cls) (c : ascii) : bool :=
  match k with
  | CChr x => chr_eqb c x
  | CDigit => is_digit c
  | CSpace => is_space c
  | CUnion a b => cls_match a c || cls_match b c
  | CNot a => negb (cls_match a c)
  end.

(** Patterns.  Repetition is always of one character class in the source;
    every pattern of the source has exactly one capturing group. *)
Inductive regex : Type :=
  | RLit (s : str)                               (* literal text *)
  | RRep (k : cls) (min : nat) (max : option nat) (* k{min,max}, greedy *)
  | RSeq (a b : regex)                           (* ab *)
  | RAlt (a b : regex)                           (* a|b *)
  | ROpt (a : regex)                             (* (?:a)?, greedy *)
  | RGroup (a : regex).                          (* (a), group 1 *)

Section Matcher.
Context {A : Type}.

(** Greedy repetition: as many characters as allowed, giving them back
    one at a time while the rest of the pattern fails. *)
Fixpoint rep (k : cls) (min : nat) (max : option nat) (s : str)
         (cont : str -> option A) {struct s} : option A :=
  let stop := match min with O => cont s | S _ => None end in
  match max with
  | Some O => stop
  | _ =>
      match s with
      | c :: s' =>
          if cls_match k c then
            match rep k (pred min) (option_map pred max) s' cont with
            | Some r => Some r
            | None => stop
            end
          else stop
      | [] => stop
      end
  end.

(** Backtracking match of [r] at the start of [s]: [cont] receives the
    text left after the match and the text of group 1 so far. *)
Fixpoint exec (r : regex) (s : str) (cap : option str)
         (cont : str -> option str -> option A) {struct r} : option A :=
  match r with
  | RLit l =>
      if starts_with l s then cont (skipn (length l) s) cap else None
  | RRep k min max => rep k min max s (fun s' => cont s' cap)
  | RSeq a b => exec a s cap (fun s' cap' => exec b s' cap' cont)
  | RAlt a b =>
      match exec a s cap cont with
      | Some x => Some x
      | None => exec b s cap cont
      end
  | ROpt a =>
      match exec a s cap cont with
      | Some x => Some x
      | None => cont s cap
      end
  | RGroup a =>
      exec a s cap
           (fun s' _ => cont s' (Some (firstn (length s - length s') s)))
  end.
End Matcher.

(** A match object: [group(0)] and [group(1)]. *)
Record rmatch : Type := { group0 : str; group1 : option str }.

Definition match_at (r : regex) (s : str) : option rmatch :=
  exec r s None
       (fun rest cap =>
          Some {| group0 := firstn (length s - length rest) s;
                  group1 := cap |}).

(** [re.search(r, s)]: the match at the leftmost position that has one. *)
Fixpoint search (r : regex) (s : str) : option rmatch :=
  match match_at r s with
  | Some m => Some m
  | None =>
      match s with
      | [] => None
      | _ :: s' => search r s'
      end
  end.

(** Shorthands for writing the patterns of the source. *)
Definition plus (k : cls) : regex := RRep k 1 None.
Definition star (k : cls) : regex := RRep k 0 None.
Definition between (k : cls) (m n : nat) : regex := RRep k m (Some n).
Definition one (k : cls) : regex := RRep k 1 (Some 1%nat).
Definition colon_or_space : cls := CUnion (CChr ":") CSpace.
Definition dash_or_slash : cls := CUnion (CChr "-") (CChr "/").
Definition not_newline : cls := CNot (CChr (ascii_of_N 10)).

End Re.
Export Re.

Declare Scope re_scope.
Delimit Scope re_scope with re.
Infix ">>" := RSeq (at level 60, right associativity) : re_scope.

(* ================================================================== *)
(** * The parser: [class MortgageStatementParser] *)
(* ================================================================== *)

Module MortgageStatementParser.

Local Open Scope py_scope.
Local Open Scope re_scope.

Definition nl : str := [ascii_of_N 10].

(** A [for] loop whose body may [return]: [Some v] is the value returned
    from inside the loop, [None] means the loop ran to its end. *)
Fixpoint for_return {X A : Type} (body : X -> result (option A)) (l : list X)
  : result (option A) :=
  match l with
  | [] => Ok None
  | x :: l' =>
      r <- body x ;;
      match r with
      | Some v => Ok (Some v)
      | None => for_return body l'
      end
  end.

(** [str(item.get(key, '')).lower()] *)
Definition lowered_field (item : pyval) (key : str) : result str :=
  v <- py_get item key (VStr []) ;;
  Ok (lower (py_str v)).

(** ** [_extract_loan_amount] *)

Definition loan_keywords : list str :=
  [lit "original loan"; lit "loan amount"].

Definition loan_item (item : pyval) : result (option pyval) :=
  description <- lowered_field item (lit "description") ;;
  if contains (lit "original loan") description
     || contains (lit "loan amount") description
  then t <- py_get item (lit "total") VNone ;; Ok (Some t)
  else Ok None.

Definition loan_field (field : pyval) : result (option pyval) :=
  name <- lowered_field field (lit "name") ;;
  if contains (lit "loan amount") name
  then v <- py_get field (lit "value") VNone ;; Ok (Some v)
  else Ok None.

Definition _extract_loan_amount (response : dict) : result pyval :=
  items <- py_iter (dict_get response (lit "line_items") (VList [])) ;;
  found <- for_return loan_item items ;;
  match found with
  | Some v => Ok v
  | None =>
      fields <- py_iter (dict_get response (lit "custom_fields") (VList [])) ;;
      found' <- for_return loan_field fields ;;
      match found' with
      | Some v => Ok v
      | None => Ok VNone
      end
  end.

(** ** [_extract_outstanding_balance] *)

Definition balance_keywords : list str :=
  [lit "principal balance"; lit "outstanding balance";
   lit "current balance"; lit "remaining balance"].

Definition balance_item (item : pyval) : result (option pyval) :=
  description <- lowered_field item (lit "description") ;;
  if existsb (fun term => contains term description) balance_keywords
  then t <- py_get item (lit "total") VNone ;; Ok (Some t)
  else Ok None.

Definition _extract_outstanding_balance (response : dict) : result pyval :=
  items <- py_iter (dict_get response (lit "line_items") (VList [])) ;;
  found <- for_return balance_item items ;;
  match found with
  | Some v => Ok v
  | None =>
      let total := dict_get response (lit "total") VNone in
      if truthy total then
        positive <- py_gt_zero total ;;
        if positive then Ok total else Ok VNone
      else Ok VNone
  end.

(** ** [_extract_apr] *)

(** The tail the three APR patterns share: a group of digits, an optional
    point and more digits, then optional white space and an optional
    percent sign. *)
Definition rate_tail : regex :=
  RGroup (plus CDigit >> ROpt (RLit (lit ".")) >> star CDigit)
  >> star CSpace >> ROpt (RLit (lit "%")).

Definition apr_label_pattern : regex :=
  RLit (lit "apr") >> plus colon_or_space >> rate_tail.

Definition annual_percentage_rate_pattern : regex :=
  RLit (lit "annual percentage rate") >> plus colon_or_space >> rate_tail.

Definition interest_rate_pattern : regex :=
  RLit (lit "interest rate") >> plus colon_or_space >> rate_tail.

Definition apr_patterns : list regex :=
  [ apr_label_pattern; annual_percentage_rate_pattern; interest_rate_pattern ].

(** [float(match.group(1))]; a group that took no part is [None], which
    [float] rejects with [TypeError]. *)
Definition float_of_group (m : rmatch) : result float :=
  match group1 m with
  | Some g => py_float g
  | None => Raise TypeError
  end.

Definition apr_pattern (text : str) (pattern : regex) : result (option pyval) :=
  match search pattern text with
  | Some m => x <- float_of_group m ;; Ok (Some (VFloat x))
  | None => Ok None
  end.

(** [try: return float(str(value).replace('%', '')) except ValueError: pass] *)
Definition float_or_pass (value : pyval) : result (option pyval) :=
  match py_float (replace_chr "%" [] (py_str value)) with
  | Ok x => Ok (Some (VFloat x))
  | Raise ValueError => Ok None
  | Raise e => Raise e
  end.

(** [if value: try: return float(...) except ValueError: pass]: the
    coercion of a custom-field value; [None] lets the loop go on. *)
Definition coerce (value : pyval) : result (option pyval) :=
  if truthy value then float_or_pass value else Ok None.

Definition apr_field (field : pyval) : result (option pyval) :=
  field_name <- lowered_field field (lit "name") ;;
  if contains (lit "apr") field_name
     || contains (lit "interest rate") field_name
  then
    value <- py_get field (lit "value") VNone ;;
    coerce value
  else Ok None.

Definition _extract_apr (response : dict) : result pyval :=
  text <- py_lower (dict_get response (lit "ocr_text") (VStr [])) ;;
  found <- for_return (apr_pattern text) apr_patterns ;;
  match found with
  | Some v => Ok v
  | None =>
      fields <- py_iter (dict_get response (lit "custom_fields") (VList [])) ;;
      found' <- for_return apr_field fields ;;
      match found' with
      | Some v => Ok v
      | None => Ok VNone
      end
  end.

(** ** [_extract_loan_terms] *)

(** [(\d+)\s*year\s*(?:fixed|term|loan)?] *)
Definition year_pattern : regex :=
  RGroup (plus CDigit) >> star CSpace >> RLit (lit "year") >> star CSpace
  >> ROpt (RAlt (RLit (lit "fixed"))
                (RAlt (RLit (lit "term")) (RLit (lit "loan")))).

(** [(\d+)\s*month\s*(?:term|loan)?] *)
Definition month_pattern : regex :=
  RGroup (plus CDigit) >> star CSpace >> RLit (lit "month") >> star CSpace
  >> ROpt (RAlt (RLit (lit "term")) (RLit (lit "loan"))).

(** [loan term[:\s]+(\d+\s*(?:year|month)s?)] *)
Definition explicit_term_pattern : regex :=
  RLit (lit "loan term") >> plus colon_or_space
  >> RGroup (plus CDigit >> star CSpace
             >> RAlt (RLit (lit "year")) (RLit (lit "month"))
             >> ROpt (RLit (lit "s"))).

Definition term_patterns : list regex :=
  [ year_pattern; month_pattern; explicit_term_pattern ].

Definition term_pattern (text : str) (pattern : regex) : result (option pyval) :=
  match search pattern text with
  | Some m => Ok (Some (VStr (strip (group0 m))))
  | None => Ok None
  end.

Definition _extract_loan_terms (response : dict) : result pyval :=
  text <- py_lower (dict_get response (lit "ocr_text") (VStr [])) ;;
  found <- for_return (term_pattern text) term_patterns ;;
  match found with
  | Some v => Ok v
  | None => Ok VNone
  end.

(** ** [_extract_property_address] *)

(** [property(?:\s+address)?[:\s]+([^\n]+(?:\n[^\n]+)?)] *)
Definition address_pattern : regex :=
  RLit (lit "property") >> ROpt (plus CSpace >> RLit (lit "address"))
  >> plus colon_or_space
  >> RGroup (plus not_newline >> ROpt (RLit nl >> plus not_newline)).

(** [if party: address = party.get('address', None); if address: return] *)
Definition party_address (party : pyval) : result (option pyval) :=
  if truthy party then
    address <- py_get party (lit "address") VNone ;;
    if truthy address then Ok (Some address) else Ok None
  else Ok None.

Definition address_in_text (response : dict) : result pyval :=
  let text := dict_get response (lit "ocr_text") (VStr []) in
  lowered <- py_lower text ;;
  match search address_pattern lowered with
  | Some m =>
      match group1 m with
      | Some g => Ok (VStr (strip g))
      | None => Raise AttributeError
      end
  | None => Ok VNone
  end.

Definition _extract_property_address (response : dict) : result pyval :=
  from_vendor <- party_address (dict_get response (lit "vendor") (VDict [])) ;;
  match from_vendor with
  | Some a => Ok a
  | None =>
      from_bill_to <-
        party_address (dict_get response (lit "bill_to") (VDict [])) ;;
      match from_bill_to with
      | Some a => Ok a
      | None => address_in_text response
      end
  end.

(** ** [_extract_dates] *)

(** [\d{1,2}[-/]\d{1,2}[-/]\d{2,4}] in a group *)
Definition date_token : regex :=
  RGroup (between CDigit 1 2 >> one dash_or_slash >> between CDigit 1 2
          >> one dash_or_slash >> between CDigit 2 4).

Definition payment_date_pattern : regex :=
  RLit (lit "payment date") >> plus colon_or_space >> date_token.

Definition origination_date_pattern : regex :=
  RAlt (RLit (lit "loan")) (RLit (lit "origination"))
  >> RLit (lit " date") >> plus colon_or_space >> date_token.

(** [d[k] = v]: the binding is replaced where it stands, or added last. *)
Fixpoint dict_set (d : dict) (k : str) (v : pyval) : dict :=
  match d with
  | [] => [(k, v)]
  | (k', v') :: d' =>
      if str_eqb k k' then (k, v) :: d' else (k', v') :: dict_set d' k v
  end.

(** [match.group(1)] as a value *)
Definition group1_value (m : rmatch) : pyval :=
  match group1 m with
  | Some g => VStr g
  | None => VNone
  end.

Definition _extract_dates (response : dict) : result dict :=
  let dates : dict :=
    [ (lit "statement_date", dict_get response (lit "date") VNone);
      (lit "due_date", dict_get response (lit "due_date") VNone);
      (lit "payment_date", VNone);
      (lit "loan_origination_date", VNone) ] in
  text <- py_lower (dict_get response (lit "ocr_text") (VStr [])) ;;
  let dates :=
    match search payment_date_pattern text with
    | Some m => dict_set dates (lit "payment_date") (group1_value m)
    | None => dates
    end in
  let dates :=
    match search origination_date_pattern text with
    | Some m => dict_set dates (lit "loan_origination_date") (group1_value m)
    | None => dates
    end in
  Ok dates.

(** ** [_extract_mortgage_fields] *)

Definition _extract_mortgage_fields (veryfi_response : dict) : result dict :=
  loan_amount <- _extract_loan_amount veryfi_response ;;
  outstanding_balance <- _extract_outstanding_balance veryfi_response ;;
  apr <- _extract_apr veryfi_response ;;
  loan_terms <- _extract_loan_terms veryfi_response ;;
  property_address <- _extract_property_address veryfi_response ;;
  dates <- _extract_dates veryfi_response ;;
  let payment_amount := dict_get veryfi_response (lit "total") VNone in
  lender_name <-
    py_get (dict_get veryfi_response (lit "vendor") (VDict []))
           (lit "name") VNone ;;
  Ok [ (lit "raw_response", VDict veryfi_response);
       (lit "parsed_fields",
        VDict [ (lit "loan_amount", loan_amount);
                (lit "outstanding_balance", outstanding_balance);
                (lit "apr", apr);
                (lit "loan_terms", loan_terms);
                (lit "property_address", property_address);
                (lit "dates", VDict dates);
                (lit "payment_amount", payment_amount);
                (lit "lender_name", lender_name) ]);
       (lit "confidence_score",
        dict_get veryfi_response (lit "confidence") VNone);
       (lit "document_type",
        dict_get veryfi_response (lit "document_type") VNone) ].

(** ** [format_output] *)

(** [if parsed.get(key): output += f"{label}{parsed[key]...}{suffix}\n"] *)
Definition emit (parsed : pyval) (key : str) (label : str)
           (fmt : pyval -> result str) (suffix : str) (output : str)
  : result str :=
  v <- py_get parsed key VNone ;;
  if truthy v then
    t <- fmt v ;;
    Ok (output ++ label ++ t ++ suffix ++ nl)
  else Ok output.

Definition plain (v : pyval) : result str := Ok (py_str v).

(** [dates.items()] *)
Definition py_items (v : pyval) : result dict :=
  match v with
  | VDict d => Ok d
  | _ => Raise AttributeError
  end.

Definition date_line (kv : str * pyval) : str :=
  let (date_type, date_value) := kv in
  if truthy date_value then
    title (replace_chr "_" (lit " ") date_type)
    ++ lit ": " ++ py_str date_value ++ nl
  else [].

Definition format_output (mortgage_data : dict) : result str :=
  let parsed := dict_get mortgage_data (lit "parsed_fields") (VDict []) in
  let output := lit "=== Mortgage Statement Summary ===" ++ nl ++ nl in
  output <- emit parsed (lit "lender_name") (lit "Lender: ") plain [] output ;;
  output <- emit parsed (lit "loan_amount") (lit "Original Loan Amount: $")
                 py_format_comma_2f [] output ;;
  output <- emit parsed (lit "outstanding_balance")
                 (lit "Outstanding Balance: $") py_format_comma_2f [] output ;;
  output <- emit parsed (lit "apr") (lit "APR: ") plain (lit "%") output ;;
  output <- emit parsed (lit "loan_terms") (lit "Loan Terms: ") plain [] output ;;
  output <- emit parsed (lit "property_address") (lit "Property Address: ")
                 plain [] output ;;
  output <- emit parsed (lit "payment_amount") (lit "Payment Amount: $")
                 py_format_comma_2f [] output ;;
  dates <- py_get parsed (lit "dates") (VDict []) ;;
  output <-
    (if truthy dates then
       items <- py_items dates ;;
       Ok (output ++ nl ++ lit "=== Important Dates ===" ++ nl
           ++ flat_map date_line items)
     else Ok output) ;;
  let confidence := dict_get mortgage_data (lit "confidence_score") VNone in
  if truthy confidence then
    Ok (output ++ nl ++ lit "Confidence Score: " ++ py_str confidence ++ nl)
  else Ok output.

End MortgageStatementParser.
Export MortgageStatementParser.

(* ================================================================== *)
(** * Vocabulary of the specification *)
(* ================================================================== *)

Module Spec.

(** [t] occurs in [s]. *)
Definition substring (t s : str) : Prop :=
  exists pre post, s = pre ++ t ++ post.

(** A text contains one of the keywords. *)
Definition mentions (keywords : list str) (text : str) : Prop :=
  exists term, In term keywords /\ substring term text.

Definition mentionsb (keywords : list str) (text : str) : bool :=
  existsb (fun term => contains term text) keywords.

(** The lower-cased description of a line item and name of a custom field,
    as the extractors compare them. *)
Definition description_of (item : dict) : str :=
  lower (py_str (dict_get item (lit "description") (VStr []))).

Definition name_of (field : dict) : str :=
  lower (py_str (dict_get field (lit "name") (VStr []))).

Definition apr_keywords : list str := [lit "apr"; lit "interest rate"].

Definition loan_amount_field_keywords : list str := [lit "loan amount"].

(** A number of the response: an [int] or a [float]. *)
Definition is_number (v : pyval) : Prop :=
  match v with
  | VInt _ | VFloat _ => True
  | _ => False
  end.

(** A number strictly greater than zero. *)
Definition positive_number (v : pyval) : Prop :=
  match v with
  | VInt z => 0 < z
  | VFloat (S754_finite false _ _) => True
  | VFloat (S754_infinity false) => True
  | _ => False
  end.

(** Every character is its own lower case. *)
Definition lowercased (s : str) : Prop := Forall (fun c => lower_chr c = c) s.

Definition all_space (s : str) : Prop := Forall (fun c => is_space c = true) s.

(** The keys of a mapping, in order. *)
Definition keys (d : dict) : list str := map fst d.

Definition date_keys : list str :=
  [ lit "statement_date"; lit "due_date"; lit "payment_date";
    lit "loan_origination_date" ].

End Spec.
Export Spec.

(* ================================================================== *)
(** * Sample responses and values *)
(* ================================================================== *)

Module Samples.

(** The floats the examples use, as [float] reads them. *)
Definition float_lit (s : string) : float :=
  match float_of_str (lit s) with
  | Some f => f
  | None => S754_nan
  end.
Arguments float_lit s%_string.

Definition f_287450_23 : float := Eval vm_compute in float_lit "287450.23".
Definition f_350000 : float := Eval vm_compute in float_lit "350000.0".
Definition f_3_75 : float := Eval vm_compute in float_lit "3.75".
Definition f_zero : float := S754_zero false.

Definition item (description : string) (fields : dict) : dict :=
  (lit "description", VStr (lit description)) :: fields.
Arguments item description%_string fields.

Definition custom_field (name : string) (value : pyval) : dict :=
  [ (lit "name", VStr (lit name)); (lit "value", value) ].
Arguments custom_field name%_string value.

(** The scenario of the specification: rate and term in the text, a total,
    no line item. *)
Definition scenario : dict :=
  [ (lit "ocr_text", VStr (lit "APR: 3.75% Loan Term: 30 year fixed"));
    (lit "total", VFloat f_287450_23);
    (lit "line_items", VList [VDict (item "Escrow" [(lit "total", VInt 250)])]);
    (lit "custom_fields", VList []) ].

Definition scenario_zero_total : dict :=
  [ (lit "total", VInt 0) ].

(** A line item and a custom field that both name the loan amount. *)
Definition both_sources : dict :=
  [ (lit "line_items",
     VList [ VDict (item "Escrow" [(lit "total", VInt 250)]);
             VDict (item "Original Loan Amount" [(lit "total", VFloat f_350000)]) ]);
    (lit "custom_fields",
     VList [ VDict (custom_field "Loan Amount" (VStr (lit "999"))) ]) ].

(** A matching line item that carries no total, next to a total and a
    custom field that could have served as fall-backs. *)
Definition balance_item_without_total : dict :=
  [ (lit "line_items", VList [ VDict (item "Principal Balance" []) ]);
    (lit "total", VFloat f_287450_23) ].

Definition loan_item_without_total : dict :=
  [ (lit "line_items", VList [ VDict (item "Loan Amount" []) ]);
    (lit "custom_fields",
     VList [ VDict (custom_field "Loan Amount" (VFloat f_350000)) ]) ].

End Samples.
Export Samples.

(* ================================================================== *)
(** * What a pattern matches *)
(* ================================================================== *)

Module ReSpec.

Definition within (max : option nat) (n : nat) : Prop :=
  match max with
  | Some m => (n <= m)%nat
  | None => True
  end.

(** The words a pattern matches, independently of the search order. *)
Inductive matches : regex -> str -> Prop :=
  | M_lit l : matches (RLit l) l
  | M_rep k min max w :
      Forall (fun c => cls_match k c = true) w ->
      (min <= length w)%nat -> within max (length w) ->
      matches (RRep k min max) w
  | M_seq a b u v : matches a u -> matches b v -> matches (RSeq a b) (u ++ v)
  | M_alt_l a b w : matches a w -> matches (RAlt a b) w
  | M_alt_r a b w : matches b w -> matches (RAlt a b) w
  | M_opt_some a w : matches a w -> matches (ROpt a) w
  | M_opt_none a : matches (ROpt a) []
  | M_group a w : matches a w -> matches (RGroup a) w.

(** The words a group of the pattern can hold. *)
Inductive captures : regex -> str -> Prop :=
  | C_here a g : matches a g -> captures (RGroup a) g
  | C_seq_l a b g : captures a g -> captures (RSeq a b) g
  | C_seq_r a b g : captures b g -> captures (RSeq a b) g
  | C_alt_l a b g : captures a g -> captures (RAlt a b) g
  | C_alt_r a b g : captures b g -> captures (RAlt a b) g
  | C_opt a g : captures a g -> captures (ROpt a) g.

(** The group takes part in every match of the pattern. *)
Fixpoint always_captures (r : regex) : bool :=
  match r with
  | RGroup _ => true
  | RSeq a b => always_captures a || always_captures b
  | RAlt a b => always_captures a && always_captures b
  | _ => false
  end.

(** How group 1 stands after a match of [r] on the word [w], given how it
    stood before. *)
Definition group_after (r : regex) (w : str) (before after : option str)
  : Prop :=
  (after = before /\ always_captures r = false)
  \/ (exists g, after = Some g /\ substring g w /\ captures r g).

(** Digits, an optional point, digits: what the group of a rate pattern
    holds. *)
Definition rate_text (g : str) : Prop :=
  exists d1 dot d2,
    g = d1 ++ dot ++ d2
    /\ Forall (fun c => is_digit c = true) d1 /\ d1 <> []
    /\ (dot = [] \/ dot = lit ".")
    /\ Forall (fun c => is_digit c = true) d2.

End ReSpec.
Export ReSpec.

(* ================================================================== *)
(** * Sample responses for the address and the loan term *)
(* ================================================================== *)

Module AddressSamples.

(** A party record (vendor or bill-to) from which no address is taken:
    a missing or empty record, or one whose address is missing or empty. *)
Definition no_address (party : pyval) : Prop :=
  truthy party = false
  \/ exists d, party = VDict d
               /\ truthy (dict_get d (lit "address") VNone) = false.

Definition vendor_response : dict :=
  [ (lit "vendor",
     VDict [ (lit "name", VStr (lit "Test Mortgage Co."));
             (lit "address", VStr (lit "456 Bank St, Finance City")) ]);
    (lit "ocr_text", VStr (lit "Property Address: 12 Oak Lane")) ].

Definition bill_to_response : dict :=
  [ (lit "vendor", VDict [ (lit "name", VStr (lit "Test Mortgage Co.")) ]);
    (lit "bill_to", VDict [ (lit "address", VStr (lit "9 Elm Road")) ]);
    (lit "ocr_text", VStr (lit "Property Address: 12 Oak Lane")) ].

Definition text_only_response : dict :=
  [ (lit "ocr_text", VStr (lit "Property Address: 12 Oak Lane")) ].

End AddressSamples.
Export AddressSamples.

(* ================================================================== *)
(** * The APR rules: the code's reading and the specification's wording *)
(* ================================================================== *)

Module AprSpec.

(** The text of a custom-field value as the code converts it: every
    percent sign removed from [str(value)]. *)
Definition percent_free (value : pyval) : str :=
  replace_chr "%" [] (py_str value).



(** Modelled on the specification's wording of NumericCoercion: a number
    is its value; a string is read after removing dollar signs, commas,
    percent signs and surrounding white space; anything else is absent. *)
Definition NumericCoercion_spec (v : pyval) : option float :=
  match v with
  | VInt z => float_of_Z z
  | VFloat f => Some f
  | VStr s =>
      float_of_str
        (strip (replace_chr "$" [] (replace_chr "," [] (replace_chr "%" [] s))))
  | _ => None
  end.






End AprSpec.
Export AprSpec.

(* ================================================================== *)
(** * The alphabet of float literals *)
(* ================================================================== *)

Module FloatSpec.



End FloatSpec.
Export FloatSpec.

(* ================================================================== *)
(** * What a rendering is made of *)
(* ================================================================== *)

Module RenderSpec.

Definition header : str :=
  lit "=== Mortgage Statement Summary ===" ++ nl ++ nl.

(** The line of a field: label, text, suffix and a newline when the value
    is truthy, nothing otherwise. *)
Definition field_line (label : str) (v : pyval) (text suffix : str) : str :=
  if truthy v then label ++ text ++ suffix ++ nl else [].

(** A currency field of a record: absent, a float, or an int small enough
    to be a float. *)
Definition currency (v : pyval) : Prop :=
  match v with
  | VNone | VFloat _ => True
  | VInt z => float_of_Z z <> None
  | _ => False
  end.

(** The text of a currency value. *)
Definition money (v : pyval) : str :=
  match py_format_comma_2f v with
  | Ok t => t
  | Raise _ => []
  end.

Definition dates_block (dates : dict) : str :=
  match dates with
  | [] => []
  | _ => nl ++ lit "=== Important Dates ===" ++ nl ++ flat_map date_line dates
  end.

Definition confidence_line (confidence : pyval) : str :=
  if truthy confidence
  then nl ++ lit "Confidence Score: " ++ py_str confidence ++ nl
  else [].

(** Digits in groups of three separated by commas, the first group of one
    to three digits. *)
Inductive grouped : str -> Prop :=
  | grouped_first ds :
      (1 <= length ds <= 3)%nat ->
      Forall (fun c => is_digit c = true) ds ->
      grouped ds
  | grouped_more g a b c :
      grouped g ->
      is_digit a = true -> is_digit b = true -> is_digit c = true ->
      grouped (g ++ ","%char :: [a; b; c]).

(** An optional minus sign, grouped integer digits, a point and exactly
    two decimals. *)
Definition two_decimals_grouped (t : str) : Prop :=
  exists sign int_part d1 d2,
    t = sign ++ int_part ++ lit "." ++ [d1; d2]
    /\ (sign = [] \/ sign = lit "-")
    /\ grouped int_part
    /\ is_digit d1 = true /\ is_digit d2 = true.

(** The sample record of the repository's rendering test. *)
Definition sample_record : dict :=
  [ (lit "parsed_fields",
     VDict [ (lit "lender_name", VStr (lit "Test Bank"));
             (lit "loan_amount", VFloat f_350000);
             (lit "outstanding_balance", VFloat f_287450_23);
             (lit "apr", VFloat f_3_75);
             (lit "loan_terms", VStr (lit "30 year fixed"));
             (lit "property_address",
              VStr (lit "123 Main St, Anytown, ST 12345"));
             (lit "payment_amount", VFloat (float_lit "1620.50"));
             (lit "dates",
              VDict [ (lit "statement_date", VStr (lit "2024-01-15"));
                      (lit "due_date", VStr (lit "2024-02-01")) ]) ]);
    (lit "confidence_score", VFloat (float_lit "0.98")) ].

(** A paid-off loan: the principal balance line item reads zero. *)
Definition paid_off_response : dict :=
  [ (lit "ocr_text", VStr (lit "Loan paid in full"));
    (lit "line_items",
     VList [ VDict (item "Principal Balance" [(lit "total", VFloat f_zero)]) ]);
    (lit "vendor", VDict [ (lit "name", VStr (lit "Test Bank")) ]) ].

Definition paid_off_rendering : str :=
  lit "=== Mortgage Statement Summary ===" ++ nl ++ nl
  ++ lit "Lender: Test Bank" ++ nl
  ++ nl ++ lit "=== Important Dates ===" ++ nl.

(** A custom field gives the loan amount as text. *)
Definition loan_field_response : dict :=
  [ (lit "custom_fields",
     VList [ VDict (custom_field "Loan Amount" (VStr (lit "350000"))) ]) ].

(** A response whose vendor is null. *)
Definition null_vendor_response : dict :=
  [ (lit "ocr_text", VStr (lit "APR: 3.75%"));
    (lit "vendor", VNone) ].

End RenderSpec.
Export RenderSpec.

(* ================================================================== *)
(** * Responses of the documented shape *)
(* ================================================================== *)

Module Shape.

(** The shape the data model gives a response: the text is a string, line
    items and custom fields are lists of records, the vendor is a record,
    the bill-to block is a record or null, the total is a number or null.
    A missing key stands for the empty text, list or record. *)
Definition well_formed (response : dict) : Prop :=
  (exists text, dict_get response (lit "ocr_text") (VStr []) = VStr text)
  /\ (exists items,
         dict_get response (lit "line_items") (VList [])
         = VList (map VDict items))
  /\ (exists fields,
         dict_get response (lit "custom_fields") (VList [])
         = VList (map VDict fields))
  /\ (exists vendor,
         dict_get response (lit "vendor") (VDict []) = VDict vendor)
  /\ (dict_get response (lit "bill_to") (VDict []) = VNone
      \/ exists bill_to,
           dict_get response (lit "bill_to") (VDict []) = VDict bill_to)
  /\ (dict_get response (lit "total") VNone = VNone
      \/ is_number (dict_get response (lit "total") VNone)).

End Shape.
Export Shape.

(* ================================================================== *)
(** * The record of a response that holds nothing *)
(* ================================================================== *)

Module EmptySample.

Definition all_absent_record : dict :=
  [ (lit "raw_response", VDict []);
    (lit "parsed_fields",
     VDict [ (lit "loan_amount", VNone);
             (lit "outstanding_balance", VNone);
             (lit "apr", VNone);
             (lit "loan_terms", VNone);
             (lit "property_address", VNone);
             (lit "dates",
              VDict [ (lit "statement_date", VNone);
                      (lit "due_date", VNone);
                      (lit "payment_date", VNone);
                      (lit "loan_origination_date", VNone) ]);
             (lit "payment_amount", VNone);
             (lit "lender_name", VNone) ]);
    (lit "confidence_score", VNone);
    (lit "document_type", VNone) ].

(** A rate written directly after its label, without colon or space. *)
Definition glued_rate_response : dict :=
  [ (lit "ocr_text", VStr (lit "APR5.25%")) ].

End EmptySample.
Export EmptySample.

(* ================================================================== *)
(** * Outcomes of the extractors *)
(* ================================================================== *)

Module Outcomes.



Definition float_or_none (v : pyval) : Prop :=
  v = VNone \/ exists f, v = VFloat f.

(** Zero, a positive finite number or plus infinity. *)
Definition non_negative (f : float) : Prop :=
  match f with
  | S754_zero false | S754_finite false _ _ | S754_infinity false => True
  | _ => False
  end.


(** A negative rate in the text and a negative rate in a custom field. *)
Definition negative_rate_in_field : dict :=
  [ (lit "ocr_text", VStr (lit "Rate table"));
    (lit "custom_fields",
     VList [ VDict (custom_field "APR" (VStr (lit "-3.5%"))) ]) ].

End Outcomes.
Export Outcomes.

(* ================================================================== *)
(** * What an evaluation returns *)
(* ================================================================== *)

Module Returns.

(** Every value the evaluation can return satisfies [P]. *)
Definition returns_only {A : Type} (P : A -> Prop) (r : result A) : Prop :=
  forall a, r = Ok a -> P a.

Definition when_some {A : Type} (P : A -> Prop) (o : option A) : Prop :=
  match o with
  | Some a => P a
  | None => True
  end.

End Returns.
Export Returns.

(* ================================================================== *)
(** * Responses that differ in letter case only *)
(* ================================================================== *)

Module CaseSpec.

(** Two responses with the same fields apart from the recognized text. *)
Definition same_except_text (r1 r2 : dict) : Prop :=
  forall k, k <> lit "ocr_text" -> lookup k r1 = lookup k r2.

(** The parsed fields of the assembled record. *)
Definition parsed_fields_of (response : dict) : result pyval :=
  bind (_extract_mortgage_fields response)
       (fun record => Ok (dict_get record (lit "parsed_fields") VNone)).

(** The response with another recognized text. *)
Definition with_text (text : str) (response : dict) : dict :=
  (lit "ocr_text", VStr text) :: response.


Definition other_fields : dict :=
  [ (lit "total", VFloat f_287450_23);
    (lit "date", VStr (lit "2024-01-15"));
    (lit "vendor", VDict [ (lit "name", VStr (lit "Test Mortgage Co.")) ]) ].



End CaseSpec.
Export CaseSpec.

(* ================================================================== *)
(** * The shape of the extracted texts *)
(* ================================================================== *)

Module Shapes.

(** A loan term as the extractor returns it: it starts with a digit,
    names the unit and has no white space at either end. *)
Definition term_shape (v : str) : Prop :=
  (exists c rest, v = c :: rest /\ is_digit c = true)
  /\ (substring (lit "year") v \/ substring (lit "month") v)
  /\ strip v = v.

Definition digits_between (lo hi : nat) (s : str) : Prop :=
  Forall (fun c => is_digit c = true) s
  /\ (lo <= length s <= hi)%nat.

Definition is_date_separator (c : ascii) : Prop :=
  c = "-"%char \/ c = "/"%char.

(** One or two digits, a dash or slash, one or two digits, a dash or
    slash, two to four digits. *)
Definition date_token_shape (g : str) : Prop :=
  exists a s1 b s2 c,
    g = a ++ s1 :: b ++ s2 :: c
    /\ digits_between 1 2 a /\ is_date_separator s1
    /\ digits_between 1 2 b /\ is_date_separator s2
    /\ digits_between 2 4 c.

(** A date the text patterns give: absent, or a date token taken from the
    lower-cased text. *)
Definition date_from_text (text : str) (v : pyval) : Prop :=
  v = VNone
  \/ exists g, v = VStr g /\ date_token_shape g /\ substring g (lower text).

Definition newlines (s : str) : nat :=
  count_occ ascii_dec s (ascii_of_N 10).

Definition dated_response : dict :=
  [ (lit "ocr_text",
     VStr (lit "Payment Date: 01/02/2024 Loan Date: 3-4-19"));
    (lit "date", VStr (lit "2024-01-15")) ].

Definition two_line_address : dict :=
  [ (lit "ocr_text",
     VStr (lit "Property Address: 12 Oak Lane" ++ nl
           ++ lit "Springfield, ST 12345 " ++ nl ++ lit "Account 7")) ].

End Shapes.
Export Shapes.

(* ================================================================== *)
(** * The rendering of an assembled record *)
(* ================================================================== *)

Module Pipeline.

(** A text that ends with a newline. *)
Definition ends_with_newline (s : str) : Prop := exists pre, s = pre ++ nl.

(** The amounts of the response are numbers: the totals of the line
    items, the values of the custom fields named "loan amount" and the
    document total are absent, floats, or ints small enough for a float. *)
Definition numeric_amounts (response : dict) (items fields : list dict)
  : Prop :=
  Forall (fun d => currency (dict_get d (lit "total") VNone)) items
  /\ Forall (fun d => mentions loan_amount_field_keywords (name_of d) ->
                      currency (dict_get d (lit "value") VNone)) fields
  /\ currency (dict_get response (lit "total") VNone).

(** A present date on its own labelled line. *)
Definition dated_line (label : str) (v : pyval) : str :=
  field_line label v (py_str v) [].

(** The text of a record, from the values of its fields. *)
Definition rendering
           (lender loan balance apr terms address payment : pyval)
           (statement due paid originated confidence : pyval) : str :=
  header
  ++ field_line (lit "Lender: ") lender (py_str lender) []
  ++ field_line (lit "Original Loan Amount: $") loan (money loan) []
  ++ field_line (lit "Outstanding Balance: $") balance (money balance) []
  ++ field_line (lit "APR: ") apr (py_str apr) (lit "%")
  ++ field_line (lit "Loan Terms: ") terms (py_str terms) []
  ++ field_line (lit "Property Address: ") address (py_str address) []
  ++ field_line (lit "Payment Amount: $") payment (money payment) []
  ++ nl ++ lit "=== Important Dates ===" ++ nl
  ++ dated_line (lit "Statement Date: ") statement
  ++ dated_line (lit "Due Date: ") due
  ++ dated_line (lit "Payment Date: ") paid
  ++ dated_line (lit "Loan Origination Date: ") originated
  ++ confidence_line confidence.

(** A statement with a line item, a rate, a term and dates. *)
Definition full_statement : dict :=
  [ (lit "ocr_text",
     VStr (lit "APR: 3.75% Loan Term: 30 year fixed Payment Date: 01/02/2024"));
    (lit "total", VFloat (float_lit "1620.50"));
    (lit "date", VStr (lit "2024-01-15"));
    (lit "vendor", VDict [ (lit "name", VStr (lit "Test Bank")) ]);
    (lit "line_items",
     VList [ VDict (item "Principal Balance"
                         [(lit "total", VFloat f_287450_23)]) ]);
    (lit "confidence", VFloat (float_lit "0.95")) ].

End Pipeline.
Export Pipeline.

(* ================================================================== *)
(** * The entry points and the recognition service *)
(* ================================================================== *)

Module EntryPoints.

(** A request to the client of the recognition service. *)
Inductive request : Type :=
  | process_document (file_path : str) (categories : list str)
  | process_document_url (file_url : str) (categories : list str).

(** What an entry point can raise: the missing file it reports itself, an
    exception of the client, an exception of the assembly. *)
Inductive failure : Type :=
  | FileNotFoundError (message : str)
  | ClientError (reason : str)
  | Internal (e : exn).

(** The surroundings of the parser: the files that exist, the answer of
    the service to a request (a response, or the reason of its failure),
    and the requests made so far, oldest first. *)
Record world : Type := {
  path_exists : str -> bool;
  client : request -> dict + str;
  requests : list request
}.

Inductive outcome (A : Type) : Type :=
  | Returned (a : A)
  | Failed (f : failure).
Arguments Returned {A} a.
Arguments Failed {A} f.

Definition io (A : Type) : Type := world -> outcome A * world.

(** [self.client.process_document(...)]: the request is recorded and the
    service answers. *)
Definition call (r : request) : io dict :=
  fun w =>
    (match client w r with
     | inl response => Returned response
     | inr reason => Failed (ClientError reason)
     end,
     {| path_exists := path_exists w;
        client := client w;
        requests := requests w ++ [r] |}).

Definition lift {A : Type} (r : result A) : outcome A :=
  match r with
  | Ok a => Returned a
  | Raise e => Failed (Internal e)
  end.

Definition categories : list str :=
  [lit "mortgage"; lit "financial"; lit "bank statement"].


Definition parse_mortgage_statement_from_url (file_url : str) : io dict :=
  fun w =>
    let (response, w) := call (process_document_url file_url categories) w in
    match response with
    | Returned response => (lift (_extract_mortgage_fields response), w)
    | Failed f => (Failed f, w)
    end.

(** A world with one file, whose service answers every request with the
    sample statement. *)
Definition sample_world : world :=
  {| path_exists := fun p => str_eqb p (lit "statement.pdf");
     client := fun _ => inl full_statement;
     requests := [] |}.

End EntryPoints.
Export EntryPoints.

(* ================================================================== *)
(** * The credentials of the application *)
(* ================================================================== *)

Module App.

(** [os.getenv(name)] in an environment: the value, or None. *)
Definition getenv (env : str -> option str) (name : str) : pyval :=
  match env name with
  | Some value => VStr value
  | None => VNone
  end.

Definition credential_names : list str :=
  [lit "VERYFI_CLIENT_ID"; lit "VERYFI_CLIENT_SECRET";
   lit "VERYFI_USERNAME"; lit "VERYFI_API_KEY"].

(** [load_credentials], in the environment as [load_dotenv] leaves it.
    The message of the exception is left out. *)
Definition load_credentials (env : str -> option str)
  : result (pyval * pyval * pyval * pyval) :=
  let client_id := getenv env (lit "VERYFI_CLIENT_ID") in
  let client_secret := getenv env (lit "VERYFI_CLIENT_SECRET") in
  let username := getenv env (lit "VERYFI_USERNAME") in
  let api_key := getenv env (lit "VERYFI_API_KEY") in
  if negb (forallb truthy [client_id; client_secret; username; api_key])
  then Raise ValueError
  else Ok (client_id, client_secret, username, api_key).

(** An environment with the user name set to the empty string. *)
Definition empty_username : str -> option str :=
  fun name =>
    if str_eqb name (lit "VERYFI_USERNAME") then Some []
    else Some (lit "secret").

Definition complete_environment : str -> option str :=
  fun _ => Some (lit "secret").

End App.
Export App.

(* ================================================================== *)
(** * Facts about strings *)
(* ================================================================== *)

Lemma chr_eqb_eq (a b : ascii) : chr_eqb a b = true <-> a = b.
Proof. apply Ascii.eqb_eq. Qed.

Lemma chr_eqb_refl (a : ascii) : chr_eqb a a = true.
Proof. apply chr_eqb_eq. reflexivity. Qed.

Lemma str_eqb_eq (a b : str) : str_eqb a b = true <-> a = b.
Proof.
  revert b. induction a as [|x a IH]; intros [|y b]; simpl; split;
    try congruence; try reflexivity.
  - intros H. apply andb_true_iff in H. destruct H as [H1 H2].
    apply chr_eqb_eq in H1. apply IH in H2. congruence.
  - intros H. injection H as -> ->. rewrite chr_eqb_refl. simpl.
    apply IH. reflexivity.
Qed.

Lemma starts_with_spec (p s : str) :
  starts_with p s = true <-> exists r, s = p ++ r.
Proof.
  revert s. induction p as [|a p IH]; intros s; simpl.
  - split; [intros _; exists s; reflexivity | reflexivity].
  - destruct s as [|b s].
    + split; [discriminate | intros [r H]; discriminate].
    + rewrite andb_true_iff, chr_eqb_eq, IH. split.
      * intros [-> [r ->]]. exists r. reflexivity.
      * intros [r H]. injection H as -> ->. split; [reflexivity | eauto].
Qed.

Lemma starts_with_skipn (p s : str) :
  starts_with p s = true -> s = p ++ skipn (length p) s.
Proof.
  intros H. apply starts_with_spec in H. destruct H as [r ->].
  rewrite skipn_app, skipn_all, Nat.sub_diag. reflexivity.
Qed.

(** The membership test [needle in hay] decides occurrence. *)
Lemma contains_spec (needle hay : str) :
  contains needle hay = true <-> substring needle hay.
Proof.
  unfold substring. induction hay as [|c hay IH].
  - simpl. rewrite orb_false_r, starts_with_spec. split.
    + intros [r H]. exists [], r. exact H.
    + intros [pre [post H]]. destruct pre; [|discriminate].
      exists post. exact H.
  - change (contains needle (c :: hay))
      with (starts_with needle (c :: hay) || contains needle hay).
    rewrite orb_true_iff, starts_with_spec, IH. split.
    + intros [[r H] | [pre [post H]]].
      * exists [], r. exact H.
      * exists (c :: pre), post. rewrite H. reflexivity.
    + intros [[|a pre] [post H]].
      * left. exists post. exact H.
      * right. injection H as _ H. exists pre, post. exact H.
Qed.

Lemma contains_false (needle hay : str) :
  contains needle hay = false <-> ~ substring needle hay.
Proof.
  rewrite <- contains_spec. destruct (contains needle hay); split;
    congruence.
Qed.

Lemma lower_chr_idem (c : ascii) : lower_chr (lower_chr c) = lower_chr c.
Proof.
  destruct c as [[] [] [] [] [] [] [] []]; vm_compute; reflexivity.
Qed.

Lemma lower_lowercased (s : str) : lowercased (lower s).
Proof.
  unfold lowercased, lower. induction s as [|c s IH]; simpl; constructor.
  - apply lower_chr_idem.
  - exact IH.
Qed.

Lemma lowercased_lower (s : str) : lowercased s -> lower s = s.
Proof.
  unfold lowercased, lower. induction 1 as [|c s Hc _ IH]; simpl.
  - reflexivity.
  - rewrite Hc, IH. reflexivity.
Qed.

Lemma lstrip_Forall (P : ascii -> Prop) (s : str) :
  Forall P s -> Forall P (lstrip s).
Proof.
  induction 1 as [|c s Hc Hs IH]; simpl.
  - constructor.
  - destruct (is_space c); [exact IH | constructor; assumption].
Qed.

Lemma strip_Forall (P : ascii -> Prop) (s : str) :
  Forall P s -> Forall P (strip s).
Proof.
  intros H. unfold strip, rstrip.
  apply Forall_rev, lstrip_Forall, Forall_rev, lstrip_Forall, H.
Qed.

Lemma lstrip_split (s : str) :
  exists ws, all_space ws /\ s = ws ++ lstrip s.
Proof.
  induction s as [|c s [ws [Hws IH]]]; simpl.
  - exists []. split; [constructor | reflexivity].
  - destruct (is_space c) eqn:E.
    + exists (c :: ws). split; [constructor; assumption |].
      simpl. rewrite <- IH. reflexivity.
    + exists []. split; [constructor | reflexivity].
Qed.

(** Stripping removes white space at both ends and nothing else. *)
Lemma strip_split (s : str) :
  exists ws1 ws2, all_space ws1 /\ all_space ws2 /\ s = ws1 ++ strip s ++ ws2.
Proof.
  destruct (lstrip_split s) as [ws1 [H1 E1]].
  destruct (lstrip_split (rev (lstrip s))) as [ws2 [H2 E2]].
  exists ws1, (rev ws2). split; [exact H1 | split].
  - apply Forall_rev. exact H2.
  - unfold strip, rstrip. rewrite <- rev_app_distr, <- E2, rev_involutive.
    exact E1.
Qed.

Lemma strip_substring (s : str) : substring (strip s) s.
Proof.
  destruct (strip_split s) as [ws1 [ws2 [_ [_ E]]]].
  exists ws1, ws2. exact E.
Qed.

Lemma substring_trans (a b c : str) :
  substring a b -> substring b c -> substring a c.
Proof.
  intros [p1 [q1 ->]] [p2 [q2 ->]].
  exists (p2 ++ p1), (q1 ++ q2). rewrite !app_assoc. reflexivity.
Qed.

Lemma substring_Forall (P : ascii -> Prop) (a b : str) :
  substring a b -> Forall P b -> Forall P a.
Proof.
  intros [p [q ->]] H. apply Forall_app in H. destruct H as [_ H].
  apply Forall_app in H. tauto.
Qed.

(* ================================================================== *)
(** * Facts about the loops of the extractors *)
(* ================================================================== *)

Lemma mentionsb_spec (keywords : list str) (text : str) :
  mentionsb keywords text = true <-> mentions keywords text.
Proof.
  unfold mentionsb, mentions. rewrite existsb_exists.
  split; intros [term [H1 H2]]; exists term; split; try assumption;
    apply contains_spec; assumption.
Qed.

Lemma mentionsb_false (keywords : list str) (text : str) :
  mentionsb keywords text = false -> ~ mentions keywords text.
Proof.
  intros H M. apply mentionsb_spec in M. congruence.
Qed.

Lemma not_mentions (keywords : list str) (text : str) :
  ~ mentions keywords text -> mentionsb keywords text = false.
Proof.
  intros H. destruct (mentionsb keywords text) eqn:E; [|reflexivity].
  apply mentionsb_spec in E. contradiction.
Qed.

(** A loop whose body never returns runs to its end. *)
Lemma for_return_none {X A : Type} (body : X -> result (option A)) (l : list X) :
  Forall (fun x => body x = Ok None) l -> for_return body l = Ok None.
Proof.
  induction 1 as [|x l Hx _ IH]; simpl.
  - reflexivity.
  - rewrite Hx. simpl. exact IH.
Qed.

(** A loop returns from the first element whose body returns. *)
Lemma for_return_first {X A : Type} (body : X -> result (option A))
      (pre : list X) (x : X) (post : list X) (v : A) :
  Forall (fun y => body y = Ok None) pre ->
  body x = Ok (Some v) ->
  for_return body (pre ++ x :: post) = Ok (Some v).
Proof.
  intros Hpre Hx. induction Hpre as [|y pre Hy _ IH]; simpl.
  - rewrite Hx. reflexivity.
  - rewrite Hy. simpl. exact IH.
Qed.

Lemma loan_item_dict (d : dict) :
  loan_item (VDict d) =
  if mentionsb loan_keywords (description_of d)
  then Ok (Some (dict_get d (lit "total") VNone)) else Ok None.
Proof.
  unfold loan_item, lowered_field, mentionsb, description_of. simpl.
  rewrite orb_false_r. reflexivity.
Qed.

Lemma balance_item_dict (d : dict) :
  balance_item (VDict d) =
  if mentionsb balance_keywords (description_of d)
  then Ok (Some (dict_get d (lit "total") VNone)) else Ok None.
Proof. reflexivity. Qed.

Lemma loan_field_dict (d : dict) :
  loan_field (VDict d) =
  if mentionsb loan_amount_field_keywords (name_of d)
  then Ok (Some (dict_get d (lit "value") VNone)) else Ok None.
Proof.
  unfold loan_field, lowered_field, mentionsb, name_of. simpl.
  rewrite orb_false_r. reflexivity.
Qed.

Lemma apr_field_dict (d : dict) :
  apr_field (VDict d) =
  if mentionsb apr_keywords (name_of d)
  then coerce (dict_get d (lit "value") VNone) else Ok None.
Proof.
  unfold apr_field, lowered_field, mentionsb, name_of. simpl.
  rewrite orb_false_r. reflexivity.
Qed.

Lemma items_skipped (keywords : list str)
      (body : pyval -> result (option pyval)) (items : list dict) :
  (forall d, body (VDict d) =
             if mentionsb keywords (description_of d)
             then Ok (Some (dict_get d (lit "total") VNone)) else Ok None) ->
  Forall (fun d => ~ mentions keywords (description_of d)) items ->
  Forall (fun x => body x = Ok None) (map VDict items).
Proof.
  intros Hbody H. induction H as [|d items Hd _ IH]; simpl; constructor.
  - rewrite Hbody, (not_mentions _ _ Hd). reflexivity.
  - exact IH.
Qed.

Lemma item_taken (keywords : list str)
      (body : pyval -> result (option pyval)) (d : dict) :
  (forall d, body (VDict d) =
             if mentionsb keywords (description_of d)
             then Ok (Some (dict_get d (lit "total") VNone)) else Ok None) ->
  mentions keywords (description_of d) ->
  body (VDict d) = Ok (Some (dict_get d (lit "total") VNone)).
Proof.
  intros Hbody H. apply mentionsb_spec in H. rewrite Hbody, H. reflexivity.
Qed.

(* ================================================================== *)
(** * Loan amount and outstanding balance *)
(* ================================================================== *)

Lemma balance_loop_none (response : dict) (items : list dict) :
  dict_get response (lit "line_items") (VList []) = VList (map VDict items) ->
  Forall (fun d => ~ mentions balance_keywords (description_of d)) items ->
  _extract_outstanding_balance response =
  (let total := dict_get response (lit "total") VNone in
   if truthy total then
     bind (py_gt_zero total) (fun p => if p then Ok total else Ok VNone)
   else Ok VNone).
Proof.
  intros Hitems Hnone. unfold _extract_outstanding_balance.
  rewrite Hitems. simpl py_iter. unfold bind at 1.
  rewrite (for_return_none _ _ (items_skipped _ _ _ balance_item_dict Hnone)).
  reflexivity.
Qed.

(** C2. When no line item's description contains a balance keyword, the
    outstanding balance is the document-level total exactly when that total
    is a number strictly greater than zero, and absent otherwise; a total of
    zero gives absent, not zero. *)
Theorem balance_falls_back_to_positive_total
        (response : dict) (items : list dict) (total : pyval) :
  dict_get response (lit "line_items") (VList []) = VList (map VDict items) ->
  Forall (fun d => ~ mentions balance_keywords (description_of d)) items ->
  dict_get response (lit "total") VNone = total ->
  total = VNone \/ is_number total ->
  (positive_number total ->
   _extract_outstanding_balance response = Ok total)
  /\ (~ positive_number total ->
      _extract_outstanding_balance response = Ok VNone)
  /\ (total = VInt 0 \/ total = VFloat (S754_zero false) ->
      _extract_outstanding_balance response = Ok VNone).
Proof.
  intros Hitems Hnone Htotal Hnum.
  rewrite (balance_loop_none _ _ Hitems Hnone), Htotal. cbv zeta.
  destruct Hnum as [-> | Hnum].
  - simpl. repeat split; intros H; try reflexivity; contradiction.
  - destruct total as [| b | z | f | s | l | d]; try contradiction.
    + (* int *)
      simpl. destruct (Z.eqb_spec z 0) as [-> | Hz]; simpl.
      * repeat split; intros H; try reflexivity; lia.
      * destruct (Z.ltb_spec 0 z) as [Hlt | Hge]; repeat split; intros H;
          try reflexivity; try lia; try contradiction;
          destruct H as [H | H]; [injection H; lia | discriminate].
    + (* float *)
      destruct f as [s | [] | | [] m e]; simpl;
        repeat split; intros H; try reflexivity; try contradiction;
        try (exfalso; apply H; exact I);
        destruct H as [H | H]; discriminate.
Qed.

Lemma balance_falls_back_to_positive_total_witness :
  _extract_outstanding_balance scenario = Ok (VFloat f_287450_23)
  /\ _extract_outstanding_balance scenario_zero_total = Ok VNone.
Proof.
  assert (N : Forall (fun d => ~ mentions balance_keywords (description_of d))
                     [item "Escrow" [(lit "total", VInt 250)]]).
  { constructor; [apply mentionsb_false; reflexivity | constructor]. }
  split.
  - exact (proj1 (@balance_falls_back_to_positive_total scenario
                    [item "Escrow" [(lit "total", VInt 250)]]
                    (VFloat f_287450_23) eq_refl N eq_refl (or_intror I)) I).
  - exact (proj2 (proj2 (@balance_falls_back_to_positive_total
                    scenario_zero_total [] (VInt 0) eq_refl (Forall_nil _)
                    eq_refl (or_intror I))) (or_introl eq_refl)).
Defined.

Lemma loan_amount_from_item
      (response : dict) (pre : list dict) (matching : dict)
      (post : list pyval) :
  dict_get response (lit "line_items") (VList [])
  = VList (map VDict pre ++ VDict matching :: post) ->
  Forall (fun d => ~ mentions loan_keywords (description_of d)) pre ->
  mentions loan_keywords (description_of matching) ->
  _extract_loan_amount response = Ok (dict_get matching (lit "total") VNone).
Proof.
  intros Hitems Hpre Hm. unfold _extract_loan_amount.
  rewrite Hitems. simpl py_iter. unfold bind at 1.
  rewrite (for_return_first _ _ _ _ _ (items_skipped _ _ _ loan_item_dict Hpre)
             (item_taken _ _ _ loan_item_dict Hm)).
  reflexivity.
Qed.

(** C6. When a line item's description names the loan amount, the loan
    amount is that line item's total (the first such item in order),
    whatever [custom_fields] holds; so a matching line item wins over a
    custom field named "loan amount". *)
Theorem loan_amount_line_item_wins
        (response : dict) (pre : list dict) (matching : dict)
        (post : list pyval) :
  dict_get response (lit "line_items") (VList [])
  = VList (map VDict pre ++ VDict matching :: post) ->
  Forall (fun d => ~ mentions loan_keywords (description_of d)) pre ->
  mentions loan_keywords (description_of matching) ->
  _extract_loan_amount response = Ok (dict_get matching (lit "total") VNone).
Proof. exact (@loan_amount_from_item response pre matching post). Qed.

Lemma loan_amount_line_item_wins_witness :
  _extract_loan_amount both_sources = Ok (VFloat f_350000)
  /\ loan_field (VDict (custom_field "Loan Amount" (VStr (lit "999"))))
     = Ok (Some (VStr (lit "999"))).
Proof.
  assert (N : Forall (fun d => ~ mentions loan_keywords (description_of d))
                     [item "Escrow" [(lit "total", VInt 250)]]).
  { constructor; [apply mentionsb_false; reflexivity | constructor]. }
  assert (M : mentions loan_keywords
                (description_of
                   (item "Original Loan Amount"
                         [(lit "total", VFloat f_350000)]))).
  { apply mentionsb_spec. reflexivity. }
  split.
  - exact (@loan_amount_line_item_wins both_sources
             [item "Escrow" [(lit "total", VInt 250)]]
             (item "Original Loan Amount" [(lit "total", VFloat f_350000)])
             [] eq_refl N M).
  - reflexivity.
Defined.

(** C9. Once a line item whose description matches is found (the first in
    order), its total is the answer even when that total is absent: the
    outstanding balance does not fall back to the document total, and the
    loan amount does not fall back to the custom fields. *)
Theorem matching_item_without_total_is_final
        (response : dict) (pre : list dict) (matching : dict)
        (post : list pyval) :
  dict_get response (lit "line_items") (VList [])
  = VList (map VDict pre ++ VDict matching :: post) ->
  dict_get matching (lit "total") VNone = VNone ->
  (Forall (fun d => ~ mentions balance_keywords (description_of d)) pre ->
   mentions balance_keywords (description_of matching) ->
   _extract_outstanding_balance response = Ok VNone)
  /\ (Forall (fun d => ~ mentions loan_keywords (description_of d)) pre ->
      mentions loan_keywords (description_of matching) ->
      _extract_loan_amount response = Ok VNone).
Proof.
  intros Hitems Htotal. split; intros Hpre Hm.
  - unfold _extract_outstanding_balance.
    rewrite Hitems. simpl py_iter. unfold bind at 1.
    rewrite (for_return_first _ _ _ _ _ (items_skipped _ _ _ balance_item_dict Hpre)
               (item_taken _ _ _ balance_item_dict Hm)).
    cbn [bind]. rewrite Htotal. reflexivity.
  - rewrite (loan_amount_from_item _ _ _ _ Hitems Hpre Hm).
    rewrite Htotal. reflexivity.
Qed.

Lemma matching_item_without_total_is_final_witness :
  _extract_outstanding_balance balance_item_without_total = Ok VNone
  /\ _extract_loan_amount loan_item_without_total = Ok VNone.
Proof.
  split.
  - apply (proj1 (@matching_item_without_total_is_final
             balance_item_without_total [] (item "Principal Balance" []) []
             eq_refl eq_refl)).
    + constructor.
    + apply mentionsb_spec. reflexivity.
  - apply (proj2 (@matching_item_without_total_is_final
             loan_item_without_total [] (item "Loan Amount" []) []
             eq_refl eq_refl)).
    + constructor.
    + apply mentionsb_spec. reflexivity.
Defined.

(* ================================================================== *)
(** * Facts about pattern matching *)
(* ================================================================== *)

Lemma substring_refl (s : str) : substring s s.
Proof. exists [], []. rewrite app_nil_r. reflexivity. Qed.

Lemma substring_app_l (g u v : str) : substring g u -> substring g (u ++ v).
Proof.
  intros [p [q ->]]. exists p, (q ++ v). rewrite <- !app_assoc. reflexivity.
Qed.

Lemma substring_app_r (g u v : str) : substring g v -> substring g (u ++ v).
Proof.
  intros [p [q ->]]. exists (u ++ p), q. rewrite <- !app_assoc. reflexivity.
Qed.

Lemma firstn_length_app (w s : str) :
  firstn (length (w ++ s) - length s) (w ++ s) = w.
Proof.
  rewrite length_app, Nat.add_sub, firstn_app, Nat.sub_diag, firstn_all.
  simpl. apply app_nil_r.
Qed.

(** A greedy repetition consumes a run of the class within its bounds. *)
Lemma rep_sound {A : Type} (k : cls) (s : str) :
  forall (min : nat) (max : option nat) (cont : str -> option A) (x : A),
    rep k min max s cont = Some x ->
    exists w s',
      s = w ++ s' /\ matches (RRep k min max) w /\ cont s' = Some x.
Proof.
  assert (Hstop : forall (t : str) min max (cont : str -> option A) x,
             match min with O => cont t | S _ => None end = Some x ->
             exists w s', t = w ++ s' /\ matches (RRep k min max) w
                          /\ cont s' = Some x).
  { intros t min max cont x H. destruct min; [|discriminate].
    exists [], t. split; [reflexivity | split; [|exact H]].
    constructor; [constructor | apply Nat.le_0_l |].
    destruct max; simpl; [apply Nat.le_0_l | exact I]. }
  induction s as [|c s IH]; intros min max cont x H.
  - simpl in H. destruct max as [[|n]|]; apply Hstop; exact H.
  - assert (Htake : forall max' y,
               within max 1 ->
               (forall n, within max' n -> within max (S n)) ->
               cls_match k c = true ->
               rep k (pred min) max' s cont = Some y ->
               exists w s', c :: s = w ++ s' /\ matches (RRep k min max) w
                            /\ cont s' = Some y).
    { intros max' y H1 Hmax Ec Er. apply IH in Er.
      destruct Er as [w [s' [-> [Hm Hc]]]].
      exists (c :: w), s'. split; [reflexivity | split; [|exact Hc]].
      inversion Hm as [| k' min' max'' w' Hall Hmin Hwithin | | | | | |];
        subst.
      constructor.
      - constructor; assumption.
      - simpl. lia.
      - apply Hmax. exact Hwithin. }
    simpl in H. destruct max as [[|n]|].
    + apply Hstop. exact H.
    + destruct (cls_match k c) eqn:Ec; [|apply Hstop; exact H].
      match type of H with
      | context [rep ?a ?b ?c ?d ?e] => destruct (rep a b c d e) eqn:Er
      end; [|apply Hstop; exact H].
      injection H as ->.
      apply (Htake (Some n) x);
        [simpl; lia | simpl; intros; lia | reflexivity | exact Er].
    + destruct (cls_match k c) eqn:Ec; [|apply Hstop; exact H].
      match type of H with
      | context [rep ?a ?b ?c ?d ?e] => destruct (rep a b c d e) eqn:Er
      end; [|apply Hstop; exact H].
      injection H as ->.
      apply (Htake None x);
        [exact I | intros; exact I | reflexivity | exact Er].
Qed.

(** A successful match splits the text into the matched word and the rest
    handed to the continuation, and group 1 then holds a part of that word
    which a group of the pattern matches. *)
Lemma exec_sound {A : Type} (r : regex) :
  forall (s : str) (cap : option str)
         (cont : str -> option str -> option A) (x : A),
    exec r s cap cont = Some x ->
    exists w s' cap',
      s = w ++ s' /\ matches r w /\ group_after r w cap cap'
      /\ cont s' cap' = Some x.
Proof.
  induction r as [l | k min max | a IHa b IHb | a IHa b IHb | a IHa | a IHa];
    intros s cap cont x H; simpl in H.
  - destruct (starts_with l s) eqn:E; [|discriminate].
    exists l, (skipn (length l) s), cap.
    split; [apply starts_with_skipn; exact E |].
    split; [constructor |]. split; [left; split; reflexivity | exact H].
  - apply rep_sound in H. destruct H as [w [s' [-> [Hm Hc]]]].
    exists w, s', cap. repeat split; try assumption. left. split; reflexivity.
  - apply IHa in H. destruct H as [u [s1 [cap1 [-> [Hu [Ga H]]]]]].
    apply IHb in H. destruct H as [v [s2 [cap2 [-> [Hv [Gb H]]]]]].
    exists (u ++ v), s2, cap2. rewrite app_assoc.
    split; [reflexivity |]. split; [constructor; assumption |].
    split; [|exact H].
    destruct Gb as [[-> Nb] | [g [-> [Sg Cg]]]].
    + destruct Ga as [[-> Na] | [g [-> [Sg Cg]]]].
      * left. split; [reflexivity | simpl; rewrite Na, Nb; reflexivity].
      * right. exists g. split; [reflexivity |].
        split; [apply substring_app_l; exact Sg | apply C_seq_l; exact Cg].
    + right. exists g. split; [reflexivity |].
      split; [apply substring_app_r; exact Sg | apply C_seq_r; exact Cg].
  - destruct (exec a s cap cont) eqn:Ea.
    + injection H as ->. apply IHa in Ea.
      destruct Ea as [w [s' [cap' [-> [Hm [G Hc]]]]]].
      exists w, s', cap'. split; [reflexivity |].
      split; [apply M_alt_l; exact Hm |]. split; [|exact Hc].
      destruct G as [[-> N] | [g [-> [Sg Cg]]]].
      * left. split; [reflexivity | simpl; rewrite N; reflexivity].
      * right. exists g. repeat split; try assumption. apply C_alt_l, Cg.
    + apply IHb in H.
      destruct H as [w [s' [cap' [-> [Hm [G Hc]]]]]].
      exists w, s', cap'. split; [reflexivity |].
      split; [apply M_alt_r; exact Hm |]. split; [|exact Hc].
      destruct G as [[-> N] | [g [-> [Sg Cg]]]].
      * left. split; [reflexivity |]. simpl. rewrite N. apply andb_false_r.
      * right. exists g. repeat split; try assumption. apply C_alt_r, Cg.
  - destruct (exec a s cap cont) eqn:Ea.
    + injection H as ->. apply IHa in Ea.
      destruct Ea as [w [s' [cap' [-> [Hm [G Hc]]]]]].
      exists w, s', cap'. split; [reflexivity |].
      split; [apply M_opt_some; exact Hm |]. split; [|exact Hc].
      destruct G as [[-> N] | [g [-> [Sg Cg]]]].
      * left. split; reflexivity.
      * right. exists g. repeat split; try assumption. apply C_opt, Cg.
    + exists [], s, cap. split; [reflexivity |].
      split; [apply M_opt_none |]. split; [left; split; reflexivity | exact H].
  - apply IHa in H. destruct H as [w [s' [cap' [-> [Hm [_ Hc]]]]]].
    rewrite firstn_length_app in Hc.
    exists w, s', (Some w). split; [reflexivity |].
    split; [apply M_group; exact Hm |]. split; [|exact Hc].
    right. exists w. split; [reflexivity |].
    split; [apply substring_refl | apply C_here; exact Hm].
Qed.

Lemma match_at_sound (r : regex) (s : str) (m : rmatch) :
  match_at r s = Some m ->
  (exists s', s = group0 m ++ s') /\ matches r (group0 m)
  /\ group_after r (group0 m) None (group1 m).
Proof.
  unfold match_at. intros H. apply exec_sound in H.
  destruct H as [w [s' [cap' [Es [Hm [G Hc]]]]]].
  injection Hc as <-. subst s. cbn [group0 group1].
  rewrite firstn_length_app.
  split; [exists s'; reflexivity | split; assumption].
Qed.

(** What [re.search] returns is a match of the pattern inside the text. *)
Lemma search_sound (r : regex) (s : str) (m : rmatch) :
  search r s = Some m ->
  substring (group0 m) s /\ matches r (group0 m)
  /\ group_after r (group0 m) None (group1 m).
Proof.
  assert (Hat : forall t, match_at r t = Some m ->
                substring (group0 m) t /\ matches r (group0 m)
                /\ group_after r (group0 m) None (group1 m)).
  { intros t H. apply match_at_sound in H. destruct H as [[s' E] Hrest].
    split; [|exact Hrest]. exists [], s'. exact E. }
  induction s as [|c s IH]; simpl.
  - destruct (match_at r []) eqn:E; [|discriminate].
    intros H. injection H as ->. apply Hat. exact E.
  - destruct (match_at r (c :: s)) eqn:E.
    + intros H. injection H as ->. apply Hat. exact E.
    + intros H. apply IH in H. destruct H as [Hs Hrest].
      split; [|exact Hrest].
      apply (substring_app_r _ [c] s) in Hs. exact Hs.
Qed.

(** Group 1 of a match is a piece of the searched text. *)
Lemma search_group1_substring (r : regex) (s : str) (m : rmatch) (g : str) :
  search r s = Some m -> group1 m = Some g -> substring g s.
Proof.
  intros H Hg. apply search_sound in H. destruct H as [Hs [_ G]].
  destruct G as [[E _] | [g' [E [Sg _]]]]; rewrite Hg in E.
  - discriminate.
  - injection E as ->. eapply substring_trans; eassumption.
Qed.

(** A pattern whose group takes part in every match always fills group 1,
    with a word its group matches. *)
Lemma search_group1_captured (r : regex) (s : str) (m : rmatch) :
  always_captures r = true ->
  search r s = Some m ->
  exists g, group1 m = Some g /\ captures r g.
Proof.
  intros Hr H. apply search_sound in H. destruct H as [_ [_ G]].
  destruct G as [[_ N] | [g [E [_ Cg]]]].
  - congruence.
  - exists g. split; assumption.
Qed.

(* ================================================================== *)
(** * Loan term and property address *)
(* ================================================================== *)



Lemma party_address_none (party : pyval) :
  no_address party -> party_address party = Ok None.
Proof.
  unfold party_address. intros [H | [d [-> H]]].
  - rewrite H. reflexivity.
  - destruct (truthy (VDict d)); [|reflexivity].
    cbn [py_get bind]. rewrite H. reflexivity.
Qed.

Lemma party_address_some (d : dict) :
  truthy (dict_get d (lit "address") VNone) = true ->
  party_address (VDict d) = Ok (Some (dict_get d (lit "address") VNone)).
Proof.
  intros H. unfold party_address.
  destruct d as [|kv d]; [discriminate H |].
  cbn [truthy py_get bind]. rewrite H. reflexivity.
Qed.

(** C10. An address taken from the vendor record, or else from the bill-to
    record, is returned as stored, so with its casing; an address found by
    the text pattern is a piece of the lower-cased recognized text and is
    therefore entirely lower case. *)
Theorem address_casing (response : dict) :
  (forall vendor,
      dict_get response (lit "vendor") (VDict []) = VDict vendor ->
      truthy (dict_get vendor (lit "address") VNone) = true ->
      _extract_property_address response
      = Ok (dict_get vendor (lit "address") VNone))
  /\ (forall bill_to,
        no_address (dict_get response (lit "vendor") (VDict [])) ->
        dict_get response (lit "bill_to") (VDict []) = VDict bill_to ->
        truthy (dict_get bill_to (lit "address") VNone) = true ->
        _extract_property_address response
        = Ok (dict_get bill_to (lit "address") VNone))
  /\ (forall text m,
        no_address (dict_get response (lit "vendor") (VDict [])) ->
        no_address (dict_get response (lit "bill_to") (VDict [])) ->
        dict_get response (lit "ocr_text") (VStr []) = VStr text ->
        search address_pattern (lower text) = Some m ->
        exists g,
          group1 m = Some g
          /\ _extract_property_address response = Ok (VStr (strip g))
          /\ substring (strip g) (lower text)
          /\ lowercased (strip g)
          /\ lower (strip g) = strip g).
Proof.
  unfold _extract_property_address. repeat split.
  - intros vendor Hv Ha. rewrite Hv, (party_address_some _ Ha). reflexivity.
  - intros bill_to Hv Hb Ha.
    rewrite (party_address_none _ Hv), Hb, (party_address_some _ Ha).
    reflexivity.
  - intros text m Hv Hb Htext Hm.
    rewrite (party_address_none _ Hv), (party_address_none _ Hb).
    cbn [bind]. unfold address_in_text. rewrite Htext.
    cbn [py_lower bind]. rewrite Hm.
    destruct (search_group1_captured address_pattern _ _ eq_refl Hm)
      as [g [Hg _]].
    exists g. rewrite Hg.
    assert (Hsub : substring (strip g) (lower text)).
    { eapply substring_trans; [apply strip_substring |].
      eapply search_group1_substring; eassumption. }
    assert (Hlow : lowercased (strip g)).
    { eapply substring_Forall; [exact Hsub | apply lower_lowercased]. }
    repeat split; try assumption.
    apply lowercased_lower. exact Hlow.
Qed.

Lemma address_casing_witness :
  _extract_property_address vendor_response
  = Ok (VStr (lit "456 Bank St, Finance City"))
  /\ _extract_property_address bill_to_response = Ok (VStr (lit "9 Elm Road"))
  /\ _extract_property_address text_only_response
     = Ok (VStr (lit "12 oak lane")).
Proof.
  split; [|split].
  - exact (proj1 (address_casing vendor_response) _ eq_refl eq_refl).
  - refine (proj1 (proj2 (address_casing bill_to_response)) _ _ eq_refl eq_refl).
    right. eexists. split; reflexivity.
  - destruct (search address_pattern
                (lower (lit "Property Address: 12 Oak Lane")))
      as [m|] eqn:E; [|discriminate E].
    destruct (proj2 (proj2 (address_casing text_only_response))
                (lit "Property Address: 12 Oak Lane") m
                (or_introl eq_refl) (or_introl eq_refl) eq_refl E)
      as [g [Hg [H _]]].
    rewrite H. vm_compute in E. injection E as <-.
    injection Hg as <-. reflexivity.
Defined.

(* ================================================================== *)
(** * Facts about reading numbers *)
(* ================================================================== *)

Lemma lstrip_nonspace (s : str) :
  Forall (fun c => is_space c = false) s -> lstrip s = s.
Proof.
  intros H. destruct H as [|c s Hc _]; simpl; [reflexivity |].
  rewrite Hc. reflexivity.
Qed.

Lemma strip_nonspace (s : str) :
  Forall (fun c => is_space c = false) s -> strip s = s.
Proof.
  intros H. unfold strip, rstrip. rewrite (lstrip_nonspace s H).
  rewrite lstrip_nonspace; [apply rev_involutive | apply Forall_rev, H].
Qed.

Lemma replace_chr_absent (old : ascii) (new s : str) :
  Forall (fun c => chr_eqb c old = false) s -> replace_chr old new s = s.
Proof.
  induction 1 as [|c s Hc _ IH]; simpl; [reflexivity |].
  rewrite Hc, IH. reflexivity.
Qed.

Lemma underscores_ok_absent (s : str) :
  Forall (fun c => chr_eqb c "_" = false) s ->
  forall prev,
    match prev with Some p => chr_eqb p "_" = false | None => True end ->
    underscores_ok prev s = true.
Proof.
  induction 1 as [|c s Hc _ IH]; intros prev Hprev; simpl.
  - destruct prev as [p|]; [rewrite Hprev|]; reflexivity.
  - rewrite Hc. rewrite (IH (Some c) Hc).
    destruct prev as [p|]; [rewrite Hprev|]; reflexivity.
Qed.

Lemma span_digits_all (ds : str) :
  Forall (fun c => is_digit c = true) ds -> span_digits ds = (ds, []).
Proof.
  induction 1 as [|c ds Hc _ IH]; simpl; [reflexivity |].
  rewrite Hc, IH. reflexivity.
Qed.

Lemma span_digits_stop (ds : str) (c : ascii) (r : str) :
  Forall (fun c => is_digit c = true) ds -> is_digit c = false ->
  span_digits (ds ++ c :: r) = (ds, c :: r).
Proof.
  intros H Hc. induction H as [|d ds Hd _ IH]; simpl.
  - rewrite Hc. reflexivity.
  - rewrite Hd, IH. reflexivity.
Qed.


Lemma digit_facts (c : ascii) :
  is_digit c = true ->
  is_space c = false /\ chr_eqb c "_" = false /\ chr_eqb c "-" = false
  /\ chr_eqb c "+" = false /\ chr_eqb c "." = false.
Proof.
  destruct c as [[] [] [] [] [] [] [] []]; vm_compute; intros H;
    try discriminate H; repeat split.
Qed.

Lemma split_sign_unsigned (c : ascii) (s : str) :
  chr_eqb c "-" = false -> chr_eqb c "+" = false ->
  split_sign (c :: s) = (false, c :: s).
Proof.
  destruct c as [[] [] [] [] [] [] [] []]; vm_compute; intros H1 H2;
    try discriminate; reflexivity.
Qed.

(** A plain decimal (digits, an optional point, digits) is a float
    literal: [float] accepts it. *)
Lemma rate_text_parses (g : str) :
  rate_text g -> exists f, float_of_str g = Some f.
Proof.
  intros [d1 [dot [d2 [-> [H1 [Hne [Hdot H2]]]]]]].
  assert (P : forall P : ascii -> Prop,
             (forall c, is_digit c = true -> P c) -> P "."%char ->
             Forall P (d1 ++ dot ++ d2)).
  { intros P Hd Hp. apply Forall_app. split.
    - eapply Forall_impl; [|exact H1]. exact Hd.
    - apply Forall_app. split.
      + destruct Hdot as [-> | ->]; repeat constructor. exact Hp.
      + eapply Forall_impl; [|exact H2]. exact Hd. }
  unfold float_of_str.
  rewrite strip_nonspace
    by (apply P; [intros c Hc; apply digit_facts, Hc | reflexivity]).
  rewrite underscores_ok_absent;
    [| apply P; [intros c Hc; apply digit_facts, Hc | reflexivity] | exact I].
  rewrite replace_chr_absent
    by (apply P; [intros c Hc; apply digit_facts, Hc | reflexivity]).
  destruct d1 as [|c d1]; [contradiction Hne; reflexivity |].
  assert (Hc : is_digit c = true) by (inversion H1; assumption).
  cbn [app]. rewrite split_sign_unsigned by (apply digit_facts, Hc).
  change (c :: d1 ++ dot ++ d2) with ((c :: d1) ++ dot ++ d2).
  unfold parse_decimal.
  destruct Hdot as [-> | ->].
  - cbn [app].
    assert (E : span_digits (c :: d1 ++ d2) = (c :: d1 ++ d2, [])).
    { apply (span_digits_all ((c :: d1) ++ d2)), Forall_app.
      split; assumption. }
    rewrite E. cbn [app]. rewrite app_nil_r. cbn [app parse_exponent]. eauto.
  - change (lit "." ++ d2) with ("."%char :: d2).
    rewrite span_digits_stop by (assumption || reflexivity).
    rewrite (span_digits_all d2 H2). cbn [app parse_exponent]. eauto.
Qed.

Lemma captures_rate_tail (g : str) : captures rate_tail g -> rate_text g.
Proof.
  unfold rate_tail, plus, star. intros H.
  inversion H as [| a b g' Hl | a b g' Hr | | |]; subst.
  - inversion Hl as [a g' Hm | | | | |]; subst.
    inversion Hm as [| | a b u v Hu Hv | | | | |]; subst.
    inversion Hv as [| | a b v1 v2 Hv1 Hv2 | | | | |]; subst.
    inversion Hu as [| k min max w Hall Hmin _ | | | | | |]; subst.
    inversion Hv2 as [| k min max w Hall2 _ _ | | | | | |]; subst.
    exists u, v1, v2. split; [reflexivity |].
    split; [exact Hall |]. split.
    + intros ->. simpl in Hmin. lia.
    + split; [|exact Hall2].
      inversion Hv1 as [| | | | | a w Hw | a |]; subst.
      * inversion Hw; subst. right. reflexivity.
      * left. reflexivity.
  - inversion Hr as [| a b g' Hl' | a b g' Hr' | | |]; subst.
    + inversion Hl'.
    + inversion Hr' as [| | | | | a g' Ho]; subst. inversion Ho.
Qed.

Lemma captures_labelled_rate (label : str) (g : str) :
  captures (RLit label >> plus colon_or_space >> rate_tail)%re g ->
  rate_text g.
Proof.
  intros H. inversion H as [| a b g' Hl | a b g' Hr | | |]; subst.
  - inversion Hl.
  - inversion Hr as [| a b g' Hl' | a b g' Hr' | | |]; subst.
    + inversion Hl'.
    + apply captures_rate_tail. exact Hr'.
Qed.

(** Whenever one of the three APR patterns matches, its group holds a
    plain decimal, which [float] reads: the text path of the APR never
    raises. *)
Lemma apr_pattern_returns (text : str) (pattern : regex) (m : rmatch) :
  In pattern apr_patterns ->
  search pattern text = Some m ->
  exists g f,
    group1 m = Some g /\ rate_text g /\ float_of_str g = Some f
    /\ apr_pattern text pattern = Ok (Some (VFloat f)).
Proof.
  intros Hin Hm.
  assert (Hcap : always_captures pattern = true
                 /\ forall g, captures pattern g -> rate_text g).
  { simpl in Hin. destruct Hin as [<- | [<- | [<- | []]]];
      (split; [reflexivity | apply captures_labelled_rate]). }
  destruct Hcap as [Hac Hrt].
  destruct (search_group1_captured _ _ _ Hac Hm) as [g [Hg Cg]].
  specialize (Hrt g Cg). destruct (rate_text_parses g Hrt) as [f Hf].
  exists g, f. repeat split; try assumption.
  unfold apr_pattern, float_of_group, py_float. rewrite Hm, Hg, Hf.
  reflexivity.
Qed.

(* ================================================================== *)
(** * APR *)
(* ================================================================== *)

Lemma coerce_spec (v : pyval) :
  coerce v =
  Ok (if truthy v
      then option_map VFloat (float_of_str (percent_free v))
      else None).
Proof.
  unfold coerce, float_or_pass, py_float, percent_free.
  destruct (truthy v); [|reflexivity].
  destruct (float_of_str _); reflexivity.
Qed.





(** The label and the number of a rate pattern must be separated by at
    least one colon or white-space character. *)
Lemma apr_label_needs_separator :
  search apr_label_pattern (lower (lit "APR5.25%")) = None
  /\ _extract_apr glued_rate_response = Ok VNone.
Proof. split; reflexivity. Qed.



(* ================================================================== *)
(** * Facts about the strings [float] accepts *)
(* ================================================================== *)




Lemma lstrip_all_space (ws s : str) :
  all_space ws -> lstrip (ws ++ s) = lstrip s.
Proof.
  induction 1 as [|c ws Hc _ IH]; simpl; [reflexivity |].
  rewrite Hc. exact IH.
Qed.

Lemma lstrip_idem (s : str) : lstrip (lstrip s) = lstrip s.
Proof.
  induction s as [|c s IH]; simpl; [reflexivity |].
  destruct (is_space c) eqn:E; [exact IH |].
  simpl. rewrite E. reflexivity.
Qed.

Lemma lstrip_app_keeps (a b : str) :
  lstrip a <> [] -> lstrip (a ++ b) = lstrip a ++ b.
Proof.
  induction a as [|c a IH]; simpl; intros H.
  - contradiction H. reflexivity.
  - destruct (is_space c); [apply IH, H | reflexivity].
Qed.

Lemma lstrip_nil_all_space (s : str) : lstrip s = [] -> all_space s.
Proof.
  induction s as [|c s IH]; simpl; intros H; [constructor |].
  destruct (is_space c) eqn:E; [|discriminate].
  constructor; [exact E | apply IH, H].
Qed.

Lemma rstrip_all_space (s ws : str) :
  all_space ws -> rstrip (s ++ ws) = rstrip s.
Proof.
  intros H. unfold rstrip. rewrite rev_app_distr, lstrip_all_space.
  - reflexivity.
  - apply Forall_rev. exact H.
Qed.

Lemma rstrip_of_all_space (ws : str) : all_space ws -> rstrip ws = [].
Proof.
  intros H. rewrite <- (app_nil_l ws). rewrite rstrip_all_space by exact H.
  reflexivity.
Qed.

(** White space around a text does not change what is left after
    stripping. *)
Lemma strip_surrounded (ws1 s ws2 : str) :
  all_space ws1 -> all_space ws2 -> strip (ws1 ++ s ++ ws2) = strip s.
Proof.
  intros H1 H2. unfold strip. rewrite lstrip_all_space by exact H1.
  destruct (lstrip s) as [|c t] eqn:E.
  - assert (Hs : all_space (s ++ ws2)).
    { apply Forall_app. split; [apply lstrip_nil_all_space, E | exact H2]. }
    destruct (lstrip_split (s ++ ws2)) as [ws [Hws Es]].
    assert (Hl : all_space (lstrip (s ++ ws2))).
    { apply lstrip_Forall. exact Hs. }
    rewrite (rstrip_of_all_space _ Hl). reflexivity.
  - rewrite lstrip_app_keeps by (rewrite E; discriminate).
    rewrite E. apply rstrip_all_space. exact H2.
Qed.

Lemma strip_idem (s : str) : strip (strip s) = strip s.
Proof.
  destruct (strip_split s) as [ws1 [ws2 [H1 [H2 E]]]].
  rewrite E at 2. rewrite strip_surrounded by assumption. reflexivity.
Qed.













(* ================================================================== *)
(** * The sign of a float literal *)
(* ================================================================== *)







(* ================================================================== *)
(** * Numeric coercion *)
(* ================================================================== *)







(* ================================================================== *)
(** * Assembly of the record *)
(* ================================================================== *)

(** C1 (the code at the failing input). A response whose vendor is null
    makes the assembly raise [AttributeError] at the lender name, although
    every extractor, the address extractor with its guard on the vendor
    included, returns on it.  With the vendor key missing the assembly
    returns; on the empty response it returns the record whose fields are
    all absent and whose dates have the four keys. *)
Theorem normalize_raises_on_null_vendor :
  _extract_mortgage_fields null_vendor_response = Raise AttributeError
  /\ _extract_property_address null_vendor_response = Ok VNone
  /\ (exists dates, _extract_dates null_vendor_response = Ok dates
                    /\ keys dates = date_keys)
  /\ (exists record,
         _extract_mortgage_fields [(lit "ocr_text", VStr (lit "APR: 3.75%"))]
         = Ok record)
  /\ _extract_mortgage_fields [] = Ok all_absent_record.
Proof.
  split; [reflexivity | split; [reflexivity | split; [|split]]].
  - eexists. split; reflexivity.
  - eexists. reflexivity.
  - reflexivity.
Qed.

(** C5 (the code at the failing input). A loan amount found in a custom
    field is returned as stored: the text "350000" stays text, where the
    coercion the APR path applies to the same value gives the number, and
    rendering the assembled record then raises [ValueError]. *)
Theorem loan_amount_custom_field_is_raw :
  _extract_loan_amount loan_field_response = Ok (VStr (lit "350000"))
  /\ coerce (VStr (lit "350000")) = Ok (Some (VFloat f_350000))
  /\ NumericCoercion_spec (VStr (lit "350000")) = Some f_350000
  /\ bind (_extract_mortgage_fields loan_field_response) format_output
     = Raise ValueError.
Proof. repeat split. Qed.

(* ================================================================== *)
(** * Rendering *)
(* ================================================================== *)

Lemma uint_to_str_digits (u : Decimal.uint) :
  Forall (fun c => is_digit c = true) (uint_to_str u).
Proof.
  induction u; simpl; constructor; try assumption; reflexivity.
Qed.

Lemma digits_of_N_digits (n : N) :
  Forall (fun c => is_digit c = true) (digits_of_N n).
Proof. apply uint_to_str_digits. Qed.

Lemma uint_to_str_nonnil (u : Decimal.uint) :
  u <> Decimal.Nil -> uint_to_str u <> [].
Proof. destruct u; simpl; intros H; congruence. Qed.

Lemma digits_of_N_nonempty (n : N) : digits_of_N n <> [].
Proof.
  apply uint_to_str_nonnil. destruct n as [|p]; simpl.
  - discriminate.
  - apply DecimalPos.Unsigned.to_uint_nonnil.
Qed.

(** Grouping by three, seen on the reversed digit string. *)
Lemma group3_rev_grouped (n : nat) :
  forall r : str,
    (length r <= n)%nat -> r <> [] ->
    Forall (fun c => is_digit c = true) r ->
    grouped (rev (group3_rev r)).
Proof.
  induction n as [|n IH]; intros r Hlen Hne Hd.
  - destruct r; [contradiction Hne; reflexivity | simpl in Hlen; lia].
  - destruct r as [|a [|b [|c [|d rest]]]].
    + contradiction Hne; reflexivity.
    + apply grouped_first; [simpl; lia | apply Forall_rev, Hd].
    + apply grouped_first; [simpl; lia | apply Forall_rev, Hd].
    + apply grouped_first; [simpl; lia | apply Forall_rev, Hd].
    + change (group3_rev (a :: b :: c :: d :: rest))
        with (a :: b :: c :: ","%char :: group3_rev (d :: rest)).
      inversion Hd as [|? ? Ha Hd1]; subst.
      inversion Hd1 as [|? ? Hb Hd2]; subst.
      inversion Hd2 as [|? ? Hc Hd3]; subst.
      replace (rev (a :: b :: c :: ","%char :: group3_rev (d :: rest)))
        with (rev (group3_rev (d :: rest)) ++ ","%char :: [c; b; a]).
      * apply grouped_more; try assumption.
        apply IH; [simpl in *; lia | discriminate | exact Hd3].
      * simpl. rewrite <- !app_assoc. reflexivity.
Qed.

Lemma group3_grouped (ds : str) :
  ds <> [] -> Forall (fun c => is_digit c = true) ds -> grouped (group3 ds).
Proof.
  intros Hne Hd. unfold group3.
  apply (group3_rev_grouped (length (rev ds))).
  - apply Nat.le_refl.
  - intros E. apply Hne. rewrite <- (rev_involutive ds), E. reflexivity.
  - apply Forall_rev, Hd.
Qed.

Lemma digit_chr_digit (z : Z) :
  0 <= z < 10 -> is_digit (digit_chr (Z.to_N z)) = true.
Proof.
  intros H.
  assert (E : z = 0 \/ z = 1 \/ z = 2 \/ z = 3 \/ z = 4 \/ z = 5 \/ z = 6
              \/ z = 7 \/ z = 8 \/ z = 9) by lia.
  repeat (destruct E as [-> | E]; [reflexivity |]). subst z. reflexivity.
Qed.

(** A finite float is printed with grouped integer digits and exactly two
    decimals. *)
Lemma format_comma_2f_shape (s : bool) (m : positive) (e : Z) :
  two_decimals_grouped (format_comma_2f (S754_finite s m e)).
Proof.
  unfold format_comma_2f. set (h := hundredths m e).
  exists (if s then lit "-" else []),
         (group3 (digits_of_N (Z.to_N (h / 100)))),
         (digit_chr (Z.to_N (h mod 100 / 10))),
         (digit_chr (Z.to_N ((h mod 100) mod 10))).
  assert (Hb : 0 <= h mod 100 < 100) by (apply Z.mod_pos_bound; lia).
  split; [reflexivity |].
  split; [destruct s; auto |].
  split; [apply group3_grouped;
          [apply digits_of_N_nonempty | apply digits_of_N_digits] |].
  split; apply digit_chr_digit.
  - split; [apply Z.div_pos; lia | apply Z.div_lt_upper_bound; lia].
  - apply Z.mod_pos_bound. lia.
Qed.

Lemma emit_plain (parsed : dict) (key label suffix output : str) :
  emit (VDict parsed) key label plain suffix output
  = Ok (output
        ++ field_line label (dict_get parsed key VNone)
             (py_str (dict_get parsed key VNone)) suffix).
Proof.
  unfold emit, field_line, plain. cbn [py_get bind].
  destruct (truthy (dict_get parsed key VNone)); cbn [bind].
  - reflexivity.
  - rewrite app_nil_r. reflexivity.
Qed.

Lemma emit_money (parsed : dict) (key label output : str) :
  currency (dict_get parsed key VNone) ->
  emit (VDict parsed) key label py_format_comma_2f [] output
  = Ok (output
        ++ field_line label (dict_get parsed key VNone)
             (money (dict_get parsed key VNone)) []).
Proof.
  unfold emit, field_line, money. cbn [py_get bind]. intros Hc.
  destruct (dict_get parsed key VNone) as [| b | z | f | t | l | d];
    try contradiction.
  - cbn [truthy]. rewrite app_nil_r. reflexivity.
  - simpl in Hc. cbn [py_format_comma_2f].
    destruct (float_of_Z z) as [f|]; [|contradiction Hc; reflexivity].
    destruct (truthy (VInt z)); cbn [bind].
    + reflexivity.
    + rewrite app_nil_r. reflexivity.
  - cbn [py_format_comma_2f].
    destruct (truthy (VFloat f)); cbn [bind].
    + reflexivity.
    + rewrite app_nil_r. reflexivity.
Qed.

(** C8 (counterexample). The record assembled for a paid-off loan has an
    outstanding balance of zero, a present value, yet its rendering has no
    "Outstanding Balance" line. *)
Lemma render_drops_zero_balance :
  _extract_outstanding_balance paid_off_response = Ok (VFloat f_zero)
  /\ bind (_extract_mortgage_fields paid_off_response) format_output
     = Ok paid_off_rendering
  /\ contains (lit "Outstanding Balance") paid_off_rendering = false.
Proof. repeat split. Qed.

(** C8 (amended). The rendering is the heading followed, in order, by one
    labelled line for every field whose value is truthy (present and not
    zero or empty) and by nothing for the others: lender, original loan
    amount, outstanding balance, APR, loan terms, property address, payment
    amount, then the dates block and the confidence score.  A currency
    value is printed after a dollar sign with thousands separators and
    exactly two decimals; the APR is printed as the number followed by a
    percent sign.  A loan amount of 350000.0 gives "$350,000.00" and an APR
    of 3.75 gives "3.75%". *)
Theorem render_lines (record parsed dates : dict) :
  dict_get record (lit "parsed_fields") (VDict []) = VDict parsed ->
  currency (dict_get parsed (lit "loan_amount") VNone) ->
  currency (dict_get parsed (lit "outstanding_balance") VNone) ->
  currency (dict_get parsed (lit "payment_amount") VNone) ->
  dict_get parsed (lit "dates") (VDict []) = VDict dates ->
  let field k := dict_get parsed k VNone in
  format_output record
  = Ok (header
        ++ field_line (lit "Lender: ") (field (lit "lender_name"))
             (py_str (field (lit "lender_name"))) []
        ++ field_line (lit "Original Loan Amount: $")
             (field (lit "loan_amount")) (money (field (lit "loan_amount"))) []
        ++ field_line (lit "Outstanding Balance: $")
             (field (lit "outstanding_balance"))
             (money (field (lit "outstanding_balance"))) []
        ++ field_line (lit "APR: ") (field (lit "apr"))
             (py_str (field (lit "apr"))) (lit "%")
        ++ field_line (lit "Loan Terms: ") (field (lit "loan_terms"))
             (py_str (field (lit "loan_terms"))) []
        ++ field_line (lit "Property Address: ")
             (field (lit "property_address"))
             (py_str (field (lit "property_address"))) []
        ++ field_line (lit "Payment Amount: $") (field (lit "payment_amount"))
             (money (field (lit "payment_amount"))) []
        ++ dates_block dates
        ++ confidence_line
             (dict_get record (lit "confidence_score") VNone))
  /\ (forall s m e,
         two_decimals_grouped (money (VFloat (S754_finite s m e))))
  /\ (field_line (lit "Original Loan Amount: $") (VFloat f_350000)
        (money (VFloat f_350000)) []
      = lit "Original Loan Amount: $350,000.00" ++ nl
      /\ field_line (lit "APR: ") (VFloat f_3_75) (py_str (VFloat f_3_75))
           (lit "%")
         = lit "APR: 3.75%" ++ nl).
Proof.
  intros Hparsed Hloan Hbal Hpay Hdates field.
  split; [|split; [|split; reflexivity]].
  - unfold format_output. rewrite Hparsed. cbv zeta.
    rewrite emit_plain. cbn [bind].
    rewrite (emit_money _ _ _ _ Hloan). cbn [bind].
    rewrite (emit_money _ _ _ _ Hbal). cbn [bind].
    rewrite emit_plain. cbn [bind].
    rewrite emit_plain. cbn [bind].
    rewrite emit_plain. cbn [bind].
    rewrite (emit_money _ _ _ _ Hpay). cbn [bind py_get].
    rewrite Hdates. unfold dates_block, confidence_line, field, header.
    destruct dates as [|kv dates]; cbn [truthy py_items bind];
      destruct (truthy (dict_get record (lit "confidence_score") VNone));
      repeat rewrite <- app_assoc; try rewrite !app_nil_r; reflexivity.
  - intros s m e. apply format_comma_2f_shape.
Qed.

Lemma render_lines_witness :
  exists out,
    format_output sample_record = Ok out
    /\ contains (lit "$350,000.00") out = true
    /\ contains (lit "3.75%") out = true.
Proof.
  destruct (@render_lines sample_record
              [ (lit "lender_name", VStr (lit "Test Bank"));
                (lit "loan_amount", VFloat f_350000);
                (lit "outstanding_balance", VFloat f_287450_23);
                (lit "apr", VFloat f_3_75);
                (lit "loan_terms", VStr (lit "30 year fixed"));
                (lit "property_address",
                 VStr (lit "123 Main St, Anytown, ST 12345"));
                (lit "payment_amount", VFloat (float_lit "1620.50"));
                (lit "dates",
                 VDict [ (lit "statement_date", VStr (lit "2024-01-15"));
                         (lit "due_date", VStr (lit "2024-02-01")) ]) ]
              [ (lit "statement_date", VStr (lit "2024-01-15"));
                (lit "due_date", VStr (lit "2024-02-01")) ]
              eq_refl I I I eq_refl) as [H _].
  eexists. split; [exact H | split; vm_compute; reflexivity].
Defined.

(* ================================================================== *)
(** * The assembly returns on responses of the documented shape *)
(* ================================================================== *)

Lemma for_return_total {X A : Type} (body : X -> result (option A))
      (l : list X) :
  Forall (fun x => exists r, body x = Ok r) l ->
  exists r, for_return body l = Ok r.
Proof.
  induction 1 as [|x l [r Hx] _ [r' IH]]; simpl.
  - eauto.
  - rewrite Hx. simpl. destruct r; eauto.
Qed.

Lemma records_total (body : pyval -> result (option pyval)) (ds : list dict) :
  (forall d, exists r, body (VDict d) = Ok r) ->
  exists r, for_return body (map VDict ds) = Ok r.
Proof.
  intros H. apply for_return_total. induction ds; simpl; constructor; auto.
Qed.

Lemma loan_amount_returns (response : dict) :
  well_formed response -> exists v, _extract_loan_amount response = Ok v.
Proof.
  intros [_ [[items Hi] [[fields Hf] _]]]. unfold _extract_loan_amount.
  rewrite Hi. cbn [py_iter bind].
  destruct (records_total loan_item items) as [r Hr].
  { intros d. rewrite loan_item_dict. destruct (mentionsb _ _); eauto. }
  rewrite Hr. cbn [bind]. destruct r as [v|]; [eauto |].
  rewrite Hf. cbn [py_iter bind].
  destruct (records_total loan_field fields) as [r Hr'].
  { intros d. rewrite loan_field_dict. destruct (mentionsb _ _); eauto. }
  rewrite Hr'. cbn [bind]. destruct r; eauto.
Qed.

Lemma outstanding_balance_returns (response : dict) :
  well_formed response ->
  exists v, _extract_outstanding_balance response = Ok v.
Proof.
  intros [_ [[items Hi] [_ [_ [_ Ht]]]]]. unfold _extract_outstanding_balance.
  rewrite Hi. cbn [py_iter bind].
  destruct (records_total balance_item items) as [r Hr].
  { intros d. rewrite balance_item_dict. destruct (mentionsb _ _); eauto. }
  rewrite Hr. cbn [bind]. destruct r as [v|]; [eauto |]. cbv zeta.
  destruct Ht as [-> | Ht]; [simpl; eauto |].
  destruct (dict_get response (lit "total") VNone); try contradiction.
  - destruct (truthy (VInt z)); [|eauto]. cbn [py_gt_zero bind].
    destruct (0 <? z); eauto.
  - destruct (truthy (VFloat f)); [|eauto]. cbn [py_gt_zero bind].
    destruct (float_pos f); eauto.
Qed.

Lemma apr_returns (response : dict) :
  well_formed response -> exists v, _extract_apr response = Ok v.
Proof.
  intros [[text Ht] [_ [[fields Hf] _]]]. unfold _extract_apr.
  rewrite Ht. cbn [py_lower bind].
  destruct (for_return_total (apr_pattern (lower text)) apr_patterns)
    as [r Hr].
  { apply Forall_forall. intros p Hp.
    destruct (search p (lower text)) as [m|] eqn:E.
    - destruct (apr_pattern_returns _ _ _ Hp E) as [g [f [_ [_ [_ H]]]]].
      eauto.
    - unfold apr_pattern. rewrite E. eauto. }
  rewrite Hr. cbn [bind]. destruct r as [v|]; [eauto |].
  rewrite Hf. cbn [py_iter bind].
  destruct (records_total apr_field fields) as [r Hr'].
  { intros d. rewrite apr_field_dict.
    destruct (mentionsb _ _); [rewrite coerce_spec|]; eauto. }
  rewrite Hr'. cbn [bind]. destruct r; eauto.
Qed.

Lemma loan_terms_returns (response : dict) :
  well_formed response -> exists v, _extract_loan_terms response = Ok v.
Proof.
  intros [[text Ht] _]. unfold _extract_loan_terms.
  rewrite Ht. cbn [py_lower bind].
  destruct (for_return_total (term_pattern (lower text)) term_patterns)
    as [r Hr].
  { apply Forall_forall. intros p _. unfold term_pattern.
    destruct (search p (lower text)); eauto. }
  rewrite Hr. cbn [bind]. destruct r; eauto.
Qed.

Lemma party_address_record (d : dict) :
  exists r, party_address (VDict d) = Ok r.
Proof.
  unfold party_address. destruct (truthy (VDict d)); [|eauto].
  cbn [py_get bind]. destruct (truthy _); eauto.
Qed.

Lemma property_address_returns (response : dict) :
  well_formed response ->
  exists v, _extract_property_address response = Ok v.
Proof.
  intros [[text Ht] [_ [_ [[vendor Hv] [Hb _]]]]].
  unfold _extract_property_address. rewrite Hv.
  destruct (party_address_record vendor) as [r Hr]. rewrite Hr. cbn [bind].
  destruct r as [a|]; [eauto |].
  assert (Hbill : exists r, party_address
                    (dict_get response (lit "bill_to") (VDict [])) = Ok r).
  { destruct Hb as [-> | [b ->]]; [eexists; reflexivity |].
    apply party_address_record. }
  destruct Hbill as [r Hr']. rewrite Hr'. cbn [bind].
  destruct r as [a|]; [eauto |].
  unfold address_in_text. rewrite Ht. cbn [py_lower bind].
  destruct (search address_pattern (lower text)) as [m|] eqn:E; [|eauto].
  destruct (search_group1_captured address_pattern _ _ eq_refl E)
    as [g [Hg _]].
  rewrite Hg. eauto.
Qed.

Lemma dict_set_keys (d : dict) (k : str) (v : pyval) :
  In k (keys d) -> keys (dict_set d k v) = keys d.
Proof.
  unfold keys. induction d as [|[k' v'] d IH]; simpl; [tauto |].
  intros H. destruct (str_eqb k k') eqn:E.
  - apply str_eqb_eq in E. subst k'. reflexivity.
  - simpl. f_equal. apply IH. destruct H as [H | H]; [|exact H].
    subst k'. assert (str_eqb k k = true) by (apply str_eqb_eq; reflexivity).
    congruence.
Qed.

(** The dates mapping has exactly the four keys, in this order, whenever
    the recognized text is a string. *)
Lemma dates_returns (response : dict) :
  well_formed response ->
  exists dates, _extract_dates response = Ok dates /\ keys dates = date_keys.
Proof.
  intros [[text Ht] _]. unfold _extract_dates. rewrite Ht.
  cbn [py_lower bind]. eexists. split; [reflexivity |].
  destruct (search payment_date_pattern (lower text));
    destruct (search origination_date_pattern (lower text));
    repeat (rewrite dict_set_keys; [|simpl; auto 6]); reflexivity.
Qed.

(** On a response of the documented shape the assembly does not raise, and
    the record it returns carries a dates mapping with exactly the four
    keys. *)
Lemma normalize_returns (response : dict) :
  well_formed response ->
  exists record parsed dates,
    _extract_mortgage_fields response = Ok record
    /\ dict_get record (lit "parsed_fields") VNone = VDict parsed
    /\ dict_get parsed (lit "dates") VNone = VDict dates
    /\ keys dates = date_keys.
Proof.
  intros Hwf. unfold _extract_mortgage_fields.
  destruct (loan_amount_returns _ Hwf) as [v1 ->].
  destruct (outstanding_balance_returns _ Hwf) as [v2 ->].
  destruct (apr_returns _ Hwf) as [v3 ->].
  destruct (loan_terms_returns _ Hwf) as [v4 ->].
  destruct (property_address_returns _ Hwf) as [v5 ->].
  destruct (dates_returns _ Hwf) as [dates [-> Hk]].
  destruct Hwf as [_ [_ [_ [[vendor Hv] _]]]]. rewrite Hv.
  cbn [bind py_get]. eexists. eexists. exists dates.
  split; [reflexivity |]. split; [reflexivity |]. split; [reflexivity |].
  exact Hk.
Qed.

(* ================================================================== *)
(** * The search finds a match whenever there is one *)
(* ================================================================== *)

Lemma rep_complete {A : Type} (k : cls) (w : str) :
  Forall (fun c => cls_match k c = true) w ->
  forall (min : nat) (max : option nat) (s' : str) (cont : str -> option A),
    (min <= length w)%nat -> within max (length w) ->
    cont s' <> None ->
    rep k min max (w ++ s') cont <> None.
Proof.
  induction 1 as [|c w Hc _ IH]; intros min max s' cont Hmin Hmax Hcont.
  - simpl in Hmin. assert (min = 0%nat) by lia. subst min.
    destruct s' as [|c s']; simpl.
    + destruct max as [[|n]|]; exact Hcont.
    + destruct max as [[|n]|]; try exact Hcont;
        (destruct (cls_match k c); [|exact Hcont]);
        match goal with
        | |- context [rep ?a ?b ?c ?d ?e] => destruct (rep a b c d e)
        end; try exact Hcont; discriminate.
  - assert (Hdeep : forall max',
               within max' (length w) ->
               rep k (pred min) max' (w ++ s') cont <> None).
    { intros max' Hw. apply IH; [simpl in Hmin; lia | exact Hw | exact Hcont]. }
    cbn [app]. simpl rep. rewrite Hc.
    destruct max as [[|n]|].
    + simpl in Hmax. lia.
    + specialize (Hdeep (Some n)). cbn [option_map pred].
      destruct (rep k (pred min) (Some n) (w ++ s') cont);
        [discriminate | exfalso; apply Hdeep; [simpl in *; lia | reflexivity]].
    + specialize (Hdeep None). cbn [option_map].
      destruct (rep k (pred min) None (w ++ s') cont);
        [discriminate | exfalso; apply Hdeep; [exact I | reflexivity]].
Qed.

(** If the pattern matches a word at the start of the text and the
    continuation accepts what follows it, the backtracking match
    succeeds. *)
Lemma exec_complete {A : Type} (r : regex) (w : str) :
  matches r w ->
  forall (s' : str) (cap : option str)
         (cont : str -> option str -> option A),
    (forall c, cont s' c <> None) ->
    exec r (w ++ s') cap cont <> None.
Proof.
  induction 1 as [ l | k min max w Hall Hmin Hmax
                 | a b u v _ IHa _ IHb | a b w _ IHa | a b w _ IHb
                 | a w _ IHa | a | a w _ IHa ];
    intros s' cap cont Hcont; simpl.
  - assert (E : starts_with l (l ++ s') = true)
      by (apply starts_with_spec; eauto).
    rewrite E, skipn_app, skipn_all, Nat.sub_diag. apply Hcont.
  - apply rep_complete; try assumption. apply Hcont.
  - rewrite <- app_assoc. apply IHa. intros c. apply IHb. exact Hcont.
  - specialize (IHa s' cap cont Hcont).
    destruct (exec a (w ++ s') cap cont); [discriminate | contradiction].
  - specialize (IHb s' cap cont Hcont).
    destruct (exec a (w ++ s') cap cont); [discriminate | exact IHb].
  - specialize (IHa s' cap cont Hcont).
    destruct (exec a (w ++ s') cap cont); [discriminate | contradiction].
  - destruct (exec a s' cap cont); [discriminate | apply Hcont].
  - apply IHa. intros c. apply Hcont.
Qed.

Lemma search_complete (r : regex) (w s : str) :
  substring w s -> matches r w -> search r s <> None.
Proof.
  intros [pre [post ->]] Hm.
  assert (Hat : match_at r (w ++ post) <> None).
  { unfold match_at. apply exec_complete; [exact Hm | discriminate]. }
  induction pre as [|c pre IH].
  - simpl app. destruct (w ++ post) as [|x t] eqn:E; simpl;
      destruct (match_at r _); try discriminate; contradiction.
  - cbn [app]. simpl search.
    destruct (match_at r (c :: pre ++ w ++ post)); [discriminate | exact IH].
Qed.

(** [re.search] returns no match exactly when the pattern matches no piece
    of the text. *)
Lemma search_none_iff (r : regex) (s : str) :
  search r s = None <-> (forall w, substring w s -> ~ matches r w).
Proof.
  split.
  - intros H w Hs Hm. exact (search_complete r w s Hs Hm H).
  - intros H. destruct (search r s) as [m|] eqn:E; [|reflexivity].
    apply search_sound in E. destruct E as [Hs [Hm _]].
    exfalso. exact (H _ Hs Hm).
Qed.

(** Wherever the explicit "loan term:" pattern matches, the year pattern
    or the month pattern matches too, so the third pattern never decides
    the loan term. *)
Lemma explicit_term_pattern_shadowed (text : str) :
  search explicit_term_pattern text <> None ->
  search year_pattern text <> None \/ search month_pattern text <> None.
Proof.
  destruct (search explicit_term_pattern text) as [m|] eqn:E;
    [intros _ | intros H; contradiction H; reflexivity].
  apply search_sound in E. destruct E as [Hs [Hm _]].
  unfold explicit_term_pattern, plus, star in Hm.
  inversion Hm as [| | a b u v Hu Hv | | | | |]; subst.
  inversion Hv as [| | a b u1 v1 Hu1 Hv1 | | | | |]; subst.
  inversion Hv1 as [| | | | | | | a w Hg]; subst.
  inversion Hg as [| | a b ds v2 Hds Hv2 | | | | |]; subst.
  inversion Hv2 as [| | a b sp v3 Hsp Hv3 | | | | |]; subst.
  inversion Hv3 as [| | a b unit v4 Hunit Hv4 | | | | |]; subst.
  assert (Hpiece : forall word,
             matches (RLit word) unit ->
             substring (ds ++ sp ++ unit) text).
  { intros word _. eapply substring_trans; [|exact Hs].
    exists (u ++ u1), v4. rewrite <- H1, <- !app_assoc. reflexivity. }
  assert (Hnil : forall k, matches (RRep k 0 None) []).
  { intros k. constructor; [constructor | apply Nat.le_refl | exact I]. }
  inversion Hunit as [| | | a b w Hy | a b w Hmo | | |]; subst.
  - left. apply (search_complete year_pattern (ds ++ sp ++ unit) text).
    + eapply Hpiece. exact Hy.
    + unfold year_pattern, plus, star.
      replace (ds ++ sp ++ unit) with (ds ++ sp ++ unit ++ [] ++ [])
        by (rewrite !app_nil_r; reflexivity).
      repeat (apply M_seq); try apply M_group; try assumption.
      * apply Hnil.
      * apply M_opt_none.
  - right. apply (search_complete month_pattern (ds ++ sp ++ unit) text).
    + eapply Hpiece. exact Hmo.
    + unfold month_pattern, plus, star.
      replace (ds ++ sp ++ unit) with (ds ++ sp ++ unit ++ [] ++ [])
        by (rewrite !app_nil_r; reflexivity).
      repeat (apply M_seq); try apply M_group; try assumption.
      * apply Hnil.
      * apply M_opt_none.
Qed.

(* ================================================================== *)
(** * Which exceptions the assembly can raise *)
(* ================================================================== *)





















(* ================================================================== *)
(** * The type and the sign of the APR *)
(* ================================================================== *)

Lemma shr_1_nonneg (mrs : shr_record) :
  0 <= shr_m mrs -> 0 <= shr_m (shr_1 mrs).
Proof.
  destruct mrs as [m r s]. simpl.
  destruct m as [|[p|p|]|[p|p|]]; simpl; intros H; lia.
Qed.

Lemma iter_pos_nonneg (p : positive) (mrs : shr_record) :
  0 <= shr_m mrs -> 0 <= shr_m (iter_pos shr_1 p mrs).
Proof.
  revert mrs. induction p as [p IH | p IH |]; intros mrs H; simpl.
  - apply IH, IH, shr_1_nonneg, H.
  - apply IH, IH, H.
  - apply shr_1_nonneg, H.
Qed.

Lemma shr_fexp_nonneg (m e : Z) (l : location) :
  0 <= m -> 0 <= shr_m (fst (shr_fexp prec emax m e l)).
Proof.
  intros H. unfold shr_fexp, shr.
  assert (H0 : 0 <= shr_m (shr_record_of_loc m l)).
  { destruct l as [|[]]; exact H. }
  destruct (fexp prec emax (Zdigits2 m + e) - e); simpl;
    [exact H0 | apply iter_pos_nonneg, H0 | exact H0].
Qed.

Lemma round_nearest_even_nonneg (m : Z) (l : location) :
  0 <= m -> 0 <= round_nearest_even m l.
Proof.
  intros H. unfold round_nearest_even.
  destruct l as [|[]]; try exact H; [destruct (Z.even m) |]; lia.
Qed.

(** Rounding a non-negative mantissa with a plus sign gives zero, a
    positive number or plus infinity. *)
Lemma binary_round_aux_non_negative (m e : Z) (l : location) :
  0 <= m -> non_negative (binary_round_aux prec emax false m e l).
Proof.
  intros H. unfold binary_round_aux.
  pose proof (shr_fexp_nonneg m e l H) as H1.
  destruct (shr_fexp prec emax m e l) as [mrs' e']. simpl in H1.
  pose proof (shr_fexp_nonneg _ e' loc_Exact
                (round_nearest_even_nonneg _ (loc_of_shr_record mrs') H1))
    as H2.
  destruct (shr_fexp prec emax _ e' loc_Exact) as [mrs'' e'']. simpl in H2.
  destruct (shr_m mrs'') as [|p|p]; [exact I | | lia].
  destruct (Z.leb e'' (Z.sub emax prec)); exact I.
Qed.

Lemma float_of_dec_non_negative (m : N) (e : Z) :
  non_negative (float_of_dec false m e).
Proof.
  unfold float_of_dec. destruct m as [|p]; [exact I |]. cbv zeta.
  destruct (400 <? _); [exact I |].
  destruct (_ <? -400); [exact I |].
  destruct (0 <=? e).
  - unfold binary_round. destruct (shl_align _ _ _) as [mz ez].
    apply binary_round_aux_non_negative. lia.
  - unfold SFdiv, SFdiv_core_binary. cbv zeta.
    set (m' := match _ with Zpos _ => _ | Z0 => _ | Zneg _ => _ end).
    assert (Hm' : 0 <= m').
    { unfold m'. destruct (_ - _ - _); [lia | | lia].
      rewrite Z.shiftl_mul_pow2 by lia.
      apply Z.mul_nonneg_nonneg; [lia | apply Z.pow_nonneg; lia]. }
    pose proof (Z.div_pos m' (Z.pos (Z.to_pos (10 ^ (- e)))) Hm' eq_refl) as Hq.
    unfold Z.div in Hq.
    destruct (Z.div_eucl m' (Z.pos (Z.to_pos (10 ^ (- e))))) as [q r].
    apply binary_round_aux_non_negative. exact Hq.
Qed.

(** The number a plain decimal reads as: never negative, never NaN. *)
Lemma rate_text_value (g : str) :
  rate_text g ->
  exists f, float_of_str g = Some f /\ non_negative f.
Proof.
  intros Hg. destruct (rate_text_parses g Hg) as [f Hf].
  exists f. split; [exact Hf |].
  destruct Hg as [d1 [dot [d2 [-> [H1 [Hne [Hdot H2]]]]]]].
  destruct d1 as [|c d1]; [contradiction Hne; reflexivity |].
  assert (Hc : is_digit c = true) by (inversion H1; assumption).
  assert (P : forall P : ascii -> Prop,
             (forall c, is_digit c = true -> P c) -> P "."%char ->
             Forall P ((c :: d1) ++ dot ++ d2)).
  { intros P Hd Hp. apply Forall_app. split.
    - eapply Forall_impl; [|exact H1]. exact Hd.
    - apply Forall_app. split.
      + destruct Hdot as [-> | ->]; repeat constructor. exact Hp.
      + eapply Forall_impl; [|exact H2]. exact Hd. }
  unfold float_of_str in Hf.
  rewrite strip_nonspace in Hf
    by (apply P; [intros x Hx; apply digit_facts, Hx | reflexivity]).
  rewrite underscores_ok_absent in Hf;
    [| apply P; [intros x Hx; apply digit_facts, Hx | reflexivity] | exact I].
  rewrite replace_chr_absent in Hf
    by (apply P; [intros x Hx; apply digit_facts, Hx | reflexivity]).
  cbn [app] in Hf. rewrite split_sign_unsigned in Hf by (apply digit_facts, Hc).
  destruct (parse_decimal _) as [[m e]|].
  - injection Hf as <-. apply float_of_dec_non_negative.
  - destruct (_ || _); [injection Hf as <-; exact I |].
    destruct (str_eqb _ _) eqn:E3; [|discriminate Hf].
    exfalso. apply str_eqb_eq in E3. unfold lower in E3. cbn [map] in E3.
    injection E3 as E3 _. clear - Hc E3.
    destruct c as [[] [] [] [] [] [] [] []]; vm_compute in Hc;
      try discriminate Hc; vm_compute in E3; discriminate E3.
Qed.

Lemma returns_only_bind {A B : Type} (P : B -> Prop)
      (r : result A) (f : A -> result B) :
  (forall a, r = Ok a -> returns_only P (f a)) ->
  returns_only P (bind r f).
Proof.
  intros Hf b H. destruct r as [a | e]; simpl in H; [|discriminate H].
  exact (Hf a eq_refl b H).
Qed.

Lemma for_return_returns_only {X A : Type} (P : A -> Prop)
      (body : X -> result (option A)) (l : list X) :
  (forall x, In x l -> returns_only (when_some P) (body x)) ->
  returns_only (when_some P) (for_return body l).
Proof.
  induction l as [|x l IH]; intros H; simpl.
  - intros a E. injection E as <-. exact I.
  - apply returns_only_bind. intros r Hr.
    pose proof (H x (or_introl eq_refl) r Hr) as Hx.
    destruct r as [v|].
    + intros a E. injection E as <-. exact Hx.
    + apply IH. intros y Hy. apply H. right. exact Hy.
Qed.

(** A loop over alternatives that each return a value with [P] or nothing
    returns a value with [P] as soon as one alternative returns one. *)
Lemma for_return_some {X A : Type} (P : A -> Prop)
      (body : X -> result (option A)) (l : list X) :
  (forall x, In x l ->
             body x = Ok None \/ exists v, body x = Ok (Some v) /\ P v) ->
  (exists x, In x l /\ body x <> Ok None) ->
  exists v, for_return body l = Ok (Some v) /\ P v.
Proof.
  induction l as [|x l IH]; intros Hall [y [Hy Hne]].
  - contradiction.
  - simpl. destruct (Hall x (or_introl eq_refl)) as [Hx | [v [Hx Hv]]].
    + rewrite Hx. simpl. apply IH.
      * intros z Hz. apply Hall. right. exact Hz.
      * destruct Hy as [<- | Hy]; [contradiction | eauto].
    + rewrite Hx. simpl. eauto.
Qed.

Lemma apr_pattern_outcome (text : str) (pattern : regex) :
  In pattern apr_patterns ->
  apr_pattern text pattern = Ok None
  \/ exists v, apr_pattern text pattern = Ok (Some v)
               /\ exists f, v = VFloat f /\ non_negative f.
Proof.
  intros Hin. destruct (search pattern text) as [m|] eqn:E.
  - right.
    destruct (apr_pattern_returns _ _ _ Hin E) as [g [f [_ [Hg [Hf H]]]]].
    destruct (rate_text_value g Hg) as [f' [Hf' Hn]].
    assert (f' = f) by congruence. subst f'.
    exists (VFloat f). split; [exact H | eauto].
  - left. unfold apr_pattern. rewrite E. reflexivity.
Qed.

(** X2. Whenever the APR extractor returns, the value is a float or
    absent, whatever the types of the response's fields: a rate found in
    the text or in a custom field is always converted. *)
Theorem apr_is_float_or_none (response : dict) (v : pyval) :
  _extract_apr response = Ok v -> float_or_none v.
Proof.
  revert v. change (returns_only float_or_none (_extract_apr response)).
  unfold _extract_apr. apply returns_only_bind. intros text _.
  apply returns_only_bind. intros found Hfound.
  assert (Hf : when_some float_or_none found).
  { revert found Hfound.
    apply for_return_returns_only. intros p Hp r Hr.
    destruct (apr_pattern_outcome text p Hp) as [E | [v [E [f [-> _]]]]];
      rewrite E in Hr; injection Hr as <-; simpl; [exact I |].
    right. eauto. }
  destruct found as [v|].
  - intros a E. injection E as <-. exact Hf.
  - apply returns_only_bind. intros fields _.
    apply returns_only_bind. intros found' Hfound'.
    assert (Hf' : when_some float_or_none found').
    { revert found' Hfound'.
      apply for_return_returns_only. intros field _. unfold apr_field.
      apply returns_only_bind. intros name _.
      destruct (_ || _).
      - apply returns_only_bind. intros value _. rewrite coerce_spec.
        intros r Hr. injection Hr as <-.
        destruct (truthy value); [|exact I].
        destruct (float_of_str (percent_free value)); simpl; [|exact I].
        right. eauto.
      - intros r Hr. injection Hr as <-. exact I. }
    destruct found' as [v|]; intros a E; injection E as <-.
    + exact Hf'.
    + left. reflexivity.
Qed.

Lemma apr_is_float_or_none_witness :
  float_or_none (VFloat f_3_75) /\ float_or_none VNone.
Proof.
  split.
  - exact (apr_is_float_or_none scenario (VFloat f_3_75) eq_refl).
  - exact (apr_is_float_or_none glued_rate_response VNone eq_refl).
Defined.

(** X3. An APR read from the recognized text is never negative and never
    NaN: the patterns capture digits and a point only, so whenever one of
    them matches the result is zero, a positive number or plus infinity. *)
Theorem apr_from_text_is_non_negative (response : dict) (text : str) :
  dict_get response (lit "ocr_text") (VStr []) = VStr text ->
  (exists pattern, In pattern apr_patterns
                   /\ search pattern (lower text) <> None) ->
  exists f, _extract_apr response = Ok (VFloat f) /\ non_negative f.
Proof.
  intros Htext [p [Hp Hm]]. unfold _extract_apr. rewrite Htext.
  cbn [py_lower bind].
  destruct (for_return_some (fun v => exists f, v = VFloat f /\ non_negative f)
              (apr_pattern (lower text)) apr_patterns)
    as [v [Hv [f [-> Hn]]]].
  - intros x Hx. apply apr_pattern_outcome, Hx.
  - exists p. split; [exact Hp |]. unfold apr_pattern.
    destruct (search p (lower text)) as [m|]; [|contradiction Hm; reflexivity].
    destruct (float_of_group m); discriminate.
  - rewrite Hv. cbn [bind]. eauto.
Qed.

Lemma apr_from_text_is_non_negative_witness :
  (exists f, _extract_apr scenario = Ok (VFloat f) /\ non_negative f)
  /\ _extract_apr negative_rate_in_field = Ok (VFloat (SFopp (float_lit "3.5"))).
Proof.
  split.
  - apply (apr_from_text_is_non_negative scenario
             (lit "APR: 3.75% Loan Term: 30 year fixed") eq_refl).
    exists apr_label_pattern. split; [left; reflexivity |].
    vm_compute. discriminate.
  - reflexivity.
Defined.

(* ================================================================== *)
(** * Letter case does not matter *)
(* ================================================================== *)

Lemma dict_get_same (r1 r2 : dict) (k : str) (d : pyval) :
  same_except_text r1 r2 -> k <> lit "ocr_text" ->
  dict_get r1 k d = dict_get r2 k d.
Proof. intros H Hk. unfold dict_get. rewrite (H k Hk). reflexivity. Qed.

Lemma same_except_text_with_text (t1 t2 : str) (response : dict) :
  same_except_text (with_text t1 response) (with_text t2 response).
Proof.
  intros k Hk. unfold with_text. cbn [lookup].
  destruct (str_eqb k (lit "ocr_text")) eqn:E; [|reflexivity].
  apply str_eqb_eq in E. contradiction.
Qed.

Ltac other_key :=
  let H := fresh in intros H; vm_compute in H; discriminate H.

(** X4. The letter case of the recognized text does not matter: two
    responses that differ only in the case of their text have the same
    parsed fields, or fail alike. *)
Theorem text_case_is_ignored (r1 r2 : dict) (t1 t2 : str) :
  same_except_text r1 r2 ->
  dict_get r1 (lit "ocr_text") (VStr []) = VStr t1 ->
  dict_get r2 (lit "ocr_text") (VStr []) = VStr t2 ->
  lower t1 = lower t2 ->
  parsed_fields_of r1 = parsed_fields_of r2.
Proof.
  intros Hsame H1 H2 Hlow.
  assert (G : forall k d, k <> lit "ocr_text" ->
                          dict_get r1 k d = dict_get r2 k d).
  { intros k d Hk. apply dict_get_same; assumption. }
  assert (E1 : _extract_loan_amount r1 = _extract_loan_amount r2).
  { unfold _extract_loan_amount.
    rewrite (G (lit "line_items")), (G (lit "custom_fields")) by other_key.
    reflexivity. }
  assert (E2 : _extract_outstanding_balance r1
               = _extract_outstanding_balance r2).
  { unfold _extract_outstanding_balance.
    rewrite (G (lit "line_items")), (G (lit "total")) by other_key.
    reflexivity. }
  assert (E3 : _extract_apr r1 = _extract_apr r2).
  { unfold _extract_apr. rewrite H1, H2. cbn [py_lower bind].
    rewrite Hlow, (G (lit "custom_fields")) by other_key. reflexivity. }
  assert (E4 : _extract_loan_terms r1 = _extract_loan_terms r2).
  { unfold _extract_loan_terms. rewrite H1, H2. cbn [py_lower bind].
    rewrite Hlow. reflexivity. }
  assert (E5 : _extract_property_address r1 = _extract_property_address r2).
  { unfold _extract_property_address, address_in_text.
    rewrite (G (lit "vendor")), (G (lit "bill_to")) by other_key.
    rewrite H1, H2. cbn [py_lower bind]. rewrite Hlow. reflexivity. }
  assert (E6 : _extract_dates r1 = _extract_dates r2).
  { unfold _extract_dates. rewrite H1, H2. cbn [py_lower bind].
    rewrite Hlow, (G (lit "date")), (G (lit "due_date")) by other_key.
    reflexivity. }
  unfold parsed_fields_of, _extract_mortgage_fields.
  rewrite E1, E2, E3, E4, E5, E6.
  rewrite (G (lit "total")), (G (lit "vendor")) by other_key.
  destruct (_extract_loan_amount r2); [|reflexivity].
  destruct (_extract_outstanding_balance r2); [|reflexivity].
  destruct (_extract_apr r2); [|reflexivity].
  destruct (_extract_loan_terms r2); [|reflexivity].
  destruct (_extract_property_address r2); [|reflexivity].
  destruct (_extract_dates r2); [|reflexivity].
  cbn [bind]. destruct (py_get _ _ _); reflexivity.
Qed.

Lemma text_case_is_ignored_witness :
  parsed_fields_of
    (with_text (lit "APR: 3.75% Payment Date: 01/02/2024") other_fields)
  = parsed_fields_of
      (with_text (lit "apr: 3.75% PAYMENT DATE: 01/02/2024") other_fields).
Proof.
  apply (text_case_is_ignored _ _
           (lit "APR: 3.75% Payment Date: 01/02/2024")
           (lit "apr: 3.75% PAYMENT DATE: 01/02/2024")).
  - apply same_except_text_with_text.
  - reflexivity.
  - reflexivity.
  - reflexivity.
Defined.






(* ================================================================== *)
(** * Where the amounts come from *)
(* ================================================================== *)

(** A scan over records whose body tests the record and answers from it
    is a search for the first record that passes the test. *)
Lemma scan_records (body : pyval -> result (option pyval))
      (test : dict -> bool) (answer : dict -> pyval) (ds : list dict) :
  (forall d, body (VDict d) =
             if test d then Ok (Some (answer d)) else Ok None) ->
  for_return body (map VDict ds) = Ok (option_map answer (find test ds)).
Proof.
  intros Hbody. induction ds as [|d ds IH]; simpl; [reflexivity |].
  rewrite Hbody. destruct (test d); simpl; [reflexivity | exact IH].
Qed.

Lemma find_none_Forall {X : Type} (test : X -> bool) (P : X -> Prop)
      (l : list X) :
  (forall x, test x = false -> P x) ->
  find test l = None -> Forall P l.
Proof.
  intros HP H. apply Forall_forall. intros x Hx.
  apply HP. exact (find_none test l H x Hx).
Qed.

(** X6. The loan amount always has a source: it is the total of a line
    item whose description names the loan, or else the value of a custom
    field named "loan amount", and it is absent when neither exists; no
    other field of the response is consulted and no default is made up. *)
Theorem loan_amount_has_a_source
        (response : dict) (items fields : list dict) :
  dict_get response (lit "line_items") (VList []) = VList (map VDict items) ->
  dict_get response (lit "custom_fields") (VList [])
  = VList (map VDict fields) ->
  exists v,
    _extract_loan_amount response = Ok v
    /\ ((exists item,
            In item items
            /\ mentions loan_keywords (description_of item)
            /\ v = dict_get item (lit "total") VNone)
        \/ (Forall (fun d => ~ mentions loan_keywords (description_of d)) items
            /\ exists field,
                 In field fields
                 /\ mentions loan_amount_field_keywords (name_of field)
                 /\ v = dict_get field (lit "value") VNone)
        \/ (Forall (fun d => ~ mentions loan_keywords (description_of d)) items
            /\ Forall (fun d => ~ mentions loan_amount_field_keywords
                                   (name_of d)) fields
            /\ v = VNone)).
Proof.
  intros Hi Hf. unfold _extract_loan_amount. rewrite Hi. cbn [py_iter bind].
  rewrite (scan_records loan_item
             (fun d => mentionsb loan_keywords (description_of d))
             (fun d => dict_get d (lit "total") VNone) items loan_item_dict).
  cbn [bind]. destruct (find _ items) as [item|] eqn:Ei; cbn [option_map].
  - apply find_some in Ei. destruct Ei as [Hin Hm].
    eexists. split; [reflexivity |]. left. exists item.
    split; [exact Hin | split; [apply mentionsb_spec, Hm | reflexivity]].
  - assert (Hnone : Forall (fun d => ~ mentions loan_keywords
                                       (description_of d)) items).
    { eapply find_none_Forall; [|exact Ei].
      intros x Hx. apply mentionsb_false. exact Hx. }
    rewrite Hf. cbn [py_iter bind].
    rewrite (scan_records loan_field
               (fun d => mentionsb loan_amount_field_keywords (name_of d))
               (fun d => dict_get d (lit "value") VNone) fields
               loan_field_dict).
    cbn [bind]. destruct (find _ fields) as [field|] eqn:Ef; cbn [option_map].
    + apply find_some in Ef. destruct Ef as [Hin Hm].
      eexists. split; [reflexivity |]. right. left.
      split; [exact Hnone |]. exists field.
      split; [exact Hin | split; [apply mentionsb_spec, Hm | reflexivity]].
    + eexists. split; [reflexivity |]. right. right.
      split; [exact Hnone | split; [|reflexivity]].
      eapply find_none_Forall; [|exact Ef].
      intros x Hx. apply mentionsb_false. exact Hx.
Qed.

Lemma loan_amount_has_a_source_witness :
  exists v, _extract_loan_amount both_sources = Ok v.
Proof.
  destruct (loan_amount_has_a_source both_sources
              [ item "Escrow" [(lit "total", VInt 250)];
                item "Original Loan Amount" [(lit "total", VFloat f_350000)] ]
              [ custom_field "Loan Amount" (VStr (lit "999")) ]
              eq_refl eq_refl) as [v [H _]].
  exists v. exact H.
Defined.

(** X7. When no line item names the balance, the outstanding balance of
    the assembled record is either absent or the very value reported as
    payment amount: the document total is then shown twice. *)
Theorem fallback_balance_is_payment_amount
        (response : dict) (items : list dict) :
  well_formed response ->
  dict_get response (lit "line_items") (VList []) = VList (map VDict items) ->
  Forall (fun d => ~ mentions balance_keywords (description_of d)) items ->
  exists record parsed,
    _extract_mortgage_fields response = Ok record
    /\ dict_get record (lit "parsed_fields") VNone = VDict parsed
    /\ (dict_get parsed (lit "outstanding_balance") VNone
        = dict_get parsed (lit "payment_amount") VNone
        \/ dict_get parsed (lit "outstanding_balance") VNone = VNone).
Proof.
  intros Hwf Hi Hnone.
  assert (Hbal : _extract_outstanding_balance response
                 = Ok (dict_get response (lit "total") VNone)
                 \/ _extract_outstanding_balance response = Ok VNone).
  { rewrite (balance_loop_none _ _ Hi Hnone). cbv zeta.
    destruct Hwf as [_ [_ [_ [_ [_ Ht]]]]].
    destruct Ht as [-> | Ht]; [right; reflexivity |].
    destruct (dict_get response (lit "total") VNone); try contradiction.
    - destruct (truthy (VInt z)); [|right; reflexivity].
      cbn [py_gt_zero bind]. destruct (0 <? z); auto.
    - destruct (truthy (VFloat f)); [|right; reflexivity].
      cbn [py_gt_zero bind]. destruct (float_pos f); auto. }
  unfold _extract_mortgage_fields.
  destruct (loan_amount_returns _ Hwf) as [v1 ->].
  destruct (apr_returns _ Hwf) as [v3 E3].
  destruct (loan_terms_returns _ Hwf) as [v4 E4].
  destruct (property_address_returns _ Hwf) as [v5 E5].
  destruct (dates_returns _ Hwf) as [dates [E6 _]].
  destruct Hwf as [_ [_ [_ [[vendor Hv] _]]]].
  destruct Hbal as [-> | ->]; cbn [bind]; rewrite E3, E4, E5, E6, Hv;
    cbn [bind py_get]; eexists; eexists;
    (split; [reflexivity | split; [reflexivity |]]).
  - left. reflexivity.
  - right. reflexivity.
Qed.

Lemma fallback_balance_is_payment_amount_witness :
  exists record, _extract_mortgage_fields scenario = Ok record.
Proof.
  destruct (fallback_balance_is_payment_amount scenario
              [ item "Escrow" [(lit "total", VInt 250)] ])
    as [record [parsed [H _]]].
  - unfold well_formed. repeat split; try (eexists; reflexivity).
    + exists [ item "Escrow" [(lit "total", VInt 250)] ]. reflexivity.
    + exists []. reflexivity.
    + right. exists []. reflexivity.
    + right. exact I.
  - reflexivity.
  - constructor; [apply mentionsb_false; reflexivity | constructor].
  - exists record. exact H.
Defined.

(* ================================================================== *)
(** * The shape of the loan term *)
(* ================================================================== *)

Lemma rstrip_app_nonspace (a : str) (x : ascii) (b : str) :
  is_space x = false -> rstrip (a ++ x :: b) = a ++ x :: rstrip b.
Proof.
  intros Hx. unfold rstrip. rewrite rev_app_distr. cbn [rev].
  rewrite <- app_assoc. cbn [app].
  destruct (lstrip (rev b)) as [|y t] eqn:E.
  - rewrite lstrip_all_space by (apply lstrip_nil_all_space, E).
    cbn [lstrip]. rewrite Hx. cbn [rev]. rewrite rev_involutive.
    reflexivity.
  - rewrite lstrip_app_keeps by (rewrite E; discriminate).
    rewrite E, rev_app_distr. cbn [rev]. rewrite rev_involutive.
    rewrite <- app_assoc. reflexivity.
Qed.

(** Stripping a text that starts with a digit keeps everything up to its
    last character that is not white space. *)
Lemma strip_keeps_core (c : ascii) (a b : str) (x : ascii) (tail : str) :
  is_digit c = true -> is_space x = false ->
  strip ((c :: a) ++ (b ++ [x]) ++ tail)
  = (c :: a) ++ (b ++ [x]) ++ rstrip tail.
Proof.
  intros Hc Hx. unfold strip.
  assert (Hs : is_space c = false) by (apply digit_facts, Hc).
  assert (E : (c :: a) ++ (b ++ [x]) ++ tail = (c :: a ++ b) ++ x :: tail).
  { cbn [app]. rewrite <- !app_assoc. reflexivity. }
  rewrite E. cbn [app lstrip]. rewrite Hs.
  change (c :: (a ++ b) ++ x :: tail) with ((c :: a ++ b) ++ x :: tail).
  rewrite rstrip_app_nonspace by exact Hx.
  cbn [app]. rewrite <- !app_assoc. reflexivity.
Qed.

Lemma term_shape_of (c : ascii) (a b : str) (x : ascii) (tail : str) :
  is_digit c = true -> is_space x = false ->
  b ++ [x] = lit "year" \/ b ++ [x] = lit "month" ->
  term_shape (strip ((c :: a) ++ (b ++ [x]) ++ tail)).
Proof.
  intros Hc Hx Hu. split; [|split].
  - rewrite strip_keeps_core by assumption. cbn [app].
    exists c, (a ++ (b ++ [x]) ++ rstrip tail).
    split; [reflexivity | exact Hc].
  - rewrite strip_keeps_core by assumption.
    assert (Hsub : substring (b ++ [x])
                     ((c :: a) ++ (b ++ [x]) ++ rstrip tail))
      by (exists (c :: a), (rstrip tail); reflexivity).
    destruct Hu as [E | E]; rewrite E in *; [left | right]; exact Hsub.
  - apply strip_idem.
Qed.

Lemma year_match_shape (w : str) :
  matches year_pattern w -> term_shape (strip w).
Proof.
  unfold year_pattern, plus, star. intros Hm.
  inversion Hm as [| | a b ds v Hds Hv | | | | |]; subst.
  inversion Hds as [| | | | | | | a w Hg]; subst.
  inversion Hg as [| k min max w Hall Hmin _ | | | | | |]; subst.
  inversion Hv as [| | a b sp v1 _ Hv1 | | | | |]; subst.
  inversion Hv1 as [| | a b u v2 Hu _ | | | | |]; subst.
  inversion Hu; subst.
  destruct ds as [|c ds]; [simpl in Hmin; lia |].
  inversion Hall; subst.
  assert (E : (c :: ds) ++ sp ++ lit "year" ++ v2
              = (c :: ds ++ sp) ++ (lit "yea" ++ ["r"%char]) ++ v2).
  { cbn [app]. rewrite <- !app_assoc. reflexivity. }
  change (term_shape (strip ((c :: ds) ++ sp ++ lit "year" ++ v2))).
  rewrite E. apply term_shape_of; auto.
Qed.

Lemma month_match_shape (w : str) :
  matches month_pattern w -> term_shape (strip w).
Proof.
  unfold month_pattern, plus, star. intros Hm.
  inversion Hm as [| | a b ds v Hds Hv | | | | |]; subst.
  inversion Hds as [| | | | | | | a w Hg]; subst.
  inversion Hg as [| k min max w Hall Hmin _ | | | | | |]; subst.
  inversion Hv as [| | a b sp v1 _ Hv1 | | | | |]; subst.
  inversion Hv1 as [| | a b u v2 Hu _ | | | | |]; subst.
  inversion Hu; subst.
  destruct ds as [|c ds]; [simpl in Hmin; lia |].
  inversion Hall; subst.
  assert (E : (c :: ds) ++ sp ++ lit "month" ++ v2
              = (c :: ds ++ sp) ++ (lit "mont" ++ ["h"%char]) ++ v2).
  { cbn [app]. rewrite <- !app_assoc. reflexivity. }
  change (term_shape (strip ((c :: ds) ++ sp ++ lit "month" ++ v2))).
  rewrite E. apply term_shape_of; auto.
Qed.

(** X8. The loan term is absent exactly when neither a number followed by
    "year" nor a number followed by "month" occurs in the lower-cased text;
    otherwise it is a piece of that text that starts with a digit, contains
    "year" or "month" and has no surrounding white space.  The third
    pattern, "loan term: ...", never decides the result. *)
Theorem loan_terms_shape (response : dict) (text : str) :
  dict_get response (lit "ocr_text") (VStr []) = VStr text ->
  (_extract_loan_terms response = Ok VNone
   /\ search year_pattern (lower text) = None
   /\ search month_pattern (lower text) = None)
  \/ (exists v,
         _extract_loan_terms response = Ok (VStr v)
         /\ term_shape v /\ substring v (lower text)
         /\ (search year_pattern (lower text) <> None
             \/ search month_pattern (lower text) <> None)).
Proof.
  intros Htext. unfold _extract_loan_terms. rewrite Htext.
  cbn [py_lower bind term_patterns for_return]. unfold term_pattern.
  destruct (search year_pattern (lower text)) as [m|] eqn:Ey.
  - right. exists (strip (group0 m)). cbn [bind].
    apply search_sound in Ey. destruct Ey as [Hs [Hm _]].
    split; [reflexivity |]. split; [apply year_match_shape, Hm |].
    split; [|left; discriminate].
    eapply substring_trans; [apply strip_substring | exact Hs].
  - cbn [bind]. destruct (search month_pattern (lower text)) as [m|] eqn:Em.
    + right. exists (strip (group0 m)). cbn [bind].
      apply search_sound in Em. destruct Em as [Hs [Hm _]].
      split; [reflexivity |]. split; [apply month_match_shape, Hm |].
      split; [|right; discriminate].
      eapply substring_trans; [apply strip_substring | exact Hs].
    + left. cbn [bind].
      destruct (search explicit_term_pattern (lower text)) as [m|] eqn:Ee.
      * exfalso.
        destruct (explicit_term_pattern_shadowed (lower text)) as [H | H];
          [rewrite Ee; discriminate | congruence | congruence].
      * cbn [bind]. auto.
Qed.

Lemma loan_terms_shape_witness :
  _extract_loan_terms scenario = Ok (VStr (lit "30 year fixed"))
  /\ term_shape (lit "30 year fixed").
Proof.
  destruct (loan_terms_shape scenario
              (lit "APR: 3.75% Loan Term: 30 year fixed") eq_refl)
    as [[H _] | [v [H [Hshape _]]]].
  - discriminate H.
  - vm_compute in H. injection H as <-. split; [reflexivity | exact Hshape].
Defined.

(* ================================================================== *)
(** * The dates *)
(* ================================================================== *)

Lemma digit_run (k : nat) (n : nat) (w : str) :
  matches (RRep CDigit k (Some n)) w -> digits_between k n w.
Proof.
  intros H. inversion H as [| c min max w' Hall Hmin Hmax | | | | | |]; subst.
  split; [exact Hall | split; assumption].
Qed.

Lemma one_separator (w : str) :
  matches (RRep dash_or_slash 1 (Some 1%nat)) w ->
  exists s, w = [s] /\ is_date_separator s.
Proof.
  intros H. inversion H as [| c min max w' Hall Hmin Hmax | | | | | |]; subst.
  simpl in Hmax. destruct w as [|s [|t w]]; simpl in *; try lia.
  exists s. split; [reflexivity |].
  inversion Hall as [|? ? Hs _]; subst. simpl in Hs.
  apply orb_true_iff in Hs. destruct Hs as [Hs | Hs];
    apply chr_eqb_eq in Hs; [left | right]; exact Hs.
Qed.

Lemma captures_date_token (g : str) :
  captures date_token g -> date_token_shape g.
Proof.
  unfold date_token, between, one. intros H.
  inversion H as [a g' Hm | | | | |]; subst.
  inversion Hm as [| | r1 r2 a v Ha Hv | | | | |]; subst.
  inversion Hv as [| | r1 r2 s1 v1 Hs1 Hv1 | | | | |]; subst.
  inversion Hv1 as [| | r1 r2 b v2 Hb Hv2 | | | | |]; subst.
  inversion Hv2 as [| | r1 r2 s2 c Hs2 Hc | | | | |]; subst.
  destruct (one_separator _ Hs1) as [x1 [-> Hx1]].
  destruct (one_separator _ Hs2) as [x2 [-> Hx2]].
  exists a, x1, b, x2, c.
  split; [reflexivity |].
  split; [apply digit_run, Ha |]. split; [exact Hx1 |].
  split; [apply digit_run, Hb |]. split; [exact Hx2 |].
  apply digit_run, Hc.
Qed.

Lemma captures_labelled_date (label : str) (g : str) :
  captures (RLit label >> plus colon_or_space >> date_token)%re g ->
  date_token_shape g.
Proof.
  intros H. inversion H as [| a b g' Hl | a b g' Hr | | |]; subst.
  - inversion Hl.
  - inversion Hr as [| a b g' Hl' | a b g' Hr' | | |]; subst.
    + inversion Hl'.
    + apply captures_date_token. exact Hr'.
Qed.

Lemma date_pattern_value (text : str) (pattern : regex) (m : rmatch) :
  always_captures pattern = true ->
  (forall g, captures pattern g -> date_token_shape g) ->
  search pattern (lower text) = Some m ->
  group1_value m <> VNone /\ date_from_text text (group1_value m).
Proof.
  intros Hac Hshape Hm.
  destruct (search_group1_captured _ _ _ Hac Hm) as [g [Hg Cg]].
  unfold group1_value. rewrite Hg. split; [discriminate |].
  right. exists g. split; [reflexivity |]. split; [apply Hshape, Cg |].
  eapply search_group1_substring; eassumption.
Qed.

Lemma payment_date_captures (g : str) :
  captures payment_date_pattern g -> date_token_shape g.
Proof. apply captures_labelled_date. Qed.

Lemma origination_date_captures (g : str) :
  captures origination_date_pattern g -> date_token_shape g.
Proof.
  unfold origination_date_pattern. intros H.
  inversion H as [| a b g' Hl | a b g' Hr | | |]; subst.
  - inversion Hl as [| | | a b g' Hx | a b g' Hx |]; subst; inversion Hx.
  - eapply captures_labelled_date. exact Hr.
Qed.

(** X9. The statement date and the due date are the response's [date] and
    [due_date] fields as they are.  The payment date and the loan
    origination date come only from the text: each is absent exactly when
    its pattern does not match, and is otherwise a token of one or two
    digits, a dash or slash, one or two digits, a dash or slash and two to
    four digits, taken from the lower-cased text.  The four keys come in
    this order. *)
Theorem dates_are_fields_or_tokens (response : dict) (text : str) :
  dict_get response (lit "ocr_text") (VStr []) = VStr text ->
  exists payment origination,
    _extract_dates response
    = Ok [ (lit "statement_date", dict_get response (lit "date") VNone);
           (lit "due_date", dict_get response (lit "due_date") VNone);
           (lit "payment_date", payment);
           (lit "loan_origination_date", origination) ]
    /\ date_from_text text payment
    /\ date_from_text text origination
    /\ (payment = VNone <-> search payment_date_pattern (lower text) = None)
    /\ (origination = VNone
        <-> search origination_date_pattern (lower text) = None).
Proof.
  intros Htext. unfold _extract_dates. rewrite Htext. cbn [py_lower bind].
  destruct (search payment_date_pattern (lower text)) as [mp|] eqn:Ep;
    destruct (search origination_date_pattern (lower text)) as [mo|] eqn:Eo.
  - destruct (date_pattern_value text payment_date_pattern mp eq_refl
                payment_date_captures Ep)
      as [Np Dp].
    destruct (date_pattern_value text origination_date_pattern mo eq_refl
                origination_date_captures Eo)
      as [No Do].
    exists (group1_value mp), (group1_value mo).
    split; [reflexivity |]. repeat split; try assumption;
      intros H; try contradiction; discriminate H.
  - destruct (date_pattern_value text payment_date_pattern mp eq_refl
                payment_date_captures Ep)
      as [Np Dp].
    exists (group1_value mp), VNone.
    split; [reflexivity |]. repeat split; try assumption;
      try (left; reflexivity);
      intros H; try contradiction; discriminate H.
  - destruct (date_pattern_value text origination_date_pattern mo eq_refl
                origination_date_captures Eo)
      as [No Do].
    exists VNone, (group1_value mo).
    split; [reflexivity |]. repeat split; try assumption;
      try (left; reflexivity);
      intros H; try contradiction; discriminate H.
  - exists VNone, VNone.
    split; [reflexivity |]. repeat split; try (left; reflexivity).
Qed.

Lemma dates_are_fields_or_tokens_witness :
  _extract_dates dated_response
  = Ok [ (lit "statement_date", VStr (lit "2024-01-15"));
         (lit "due_date", VNone);
         (lit "payment_date", VStr (lit "01/02/2024"));
         (lit "loan_origination_date", VStr (lit "3-4-19")) ].
Proof.
  destruct (dates_are_fields_or_tokens dated_response
              (lit "Payment Date: 01/02/2024 Loan Date: 3-4-19") eq_refl)
    as [p [o [H _]]].
  rewrite H. vm_compute in H. injection H as <- <-. reflexivity.
Defined.

(* ================================================================== *)
(** * The address found in the text *)
(* ================================================================== *)

Lemma newlines_app (a b : str) : newlines (a ++ b) = (newlines a + newlines b)%nat.
Proof. unfold newlines. apply count_occ_app. Qed.

Lemma line_has_no_newline (l : str) :
  Forall (fun c => cls_match not_newline c = true) l -> newlines l = 0%nat.
Proof.
  intros H. unfold newlines. apply count_occ_not_In. intros Hin.
  rewrite Forall_forall in H. specialize (H _ Hin).
  vm_compute in H. discriminate H.
Qed.

Lemma captures_address (g : str) :
  captures address_pattern g -> (newlines g <= 1)%nat.
Proof.
  unfold address_pattern, plus. intros H.
  inversion H as [| a b g' Hl | a b g' Hr | | |]; subst; [inversion Hl |].
  inversion Hr as [| a b g' Hl1 | a b g' Hr1 | | |]; subst.
  - inversion Hl1 as [| | | | | a g' Ho]; subst.
    inversion Ho as [| a b g' Hx | a b g' Hx | | |]; subst; inversion Hx.
  - inversion Hr1 as [| a b g' Hl2 | a b g' Hr2 | | |]; subst;
      [inversion Hl2 |].
    inversion Hr2 as [a g' Hm | | | | |]; subst.
    inversion Hm as [| | r1 r2 l1 v Hl1' Hv | | | | |]; subst.
    inversion Hl1' as [| k min max w Hall1 _ _ | | | | | |]; subst.
    rewrite newlines_app, (line_has_no_newline _ Hall1).
    inversion Hv as [| | | | | a w Hw | a |]; subst.
    + inversion Hw as [| | r1 r2 n l2 Hn Hl2' | | | | |]; subst.
      inversion Hn; subst.
      inversion Hl2' as [| k min max w Hall2 _ _ | | | | | |]; subst.
      rewrite newlines_app, (line_has_no_newline _ Hall2).
      assert (E1 : newlines nl = 1%nat) by reflexivity. lia.
    + unfold newlines. simpl. lia.
Qed.

Lemma newlines_strip (g : str) : (newlines (strip g) <= newlines g)%nat.
Proof.
  destruct (strip_split g) as [ws1 [ws2 [_ [_ E]]]].
  rewrite E at 2. rewrite !newlines_app. lia.
Qed.

(** X10. When neither the vendor nor the bill-to record gives an address,
    the property address is absent exactly when the text pattern does not
    match; otherwise it is a piece of the lower-cased text without
    surrounding white space that spans at most two lines. *)
Theorem address_from_text_spans_two_lines (response : dict) (text : str) :
  no_address (dict_get response (lit "vendor") (VDict [])) ->
  no_address (dict_get response (lit "bill_to") (VDict [])) ->
  dict_get response (lit "ocr_text") (VStr []) = VStr text ->
  (_extract_property_address response = Ok VNone
   /\ search address_pattern (lower text) = None)
  \/ (exists v,
         _extract_property_address response = Ok (VStr v)
         /\ (newlines v <= 1)%nat
         /\ strip v = v
         /\ substring v (lower text)
         /\ search address_pattern (lower text) <> None).
Proof.
  intros Hv Hb Htext. unfold _extract_property_address.
  rewrite (party_address_none _ Hv), (party_address_none _ Hb).
  cbn [bind]. unfold address_in_text. rewrite Htext. cbn [py_lower bind].
  destruct (search address_pattern (lower text)) as [m|] eqn:E;
    [right | left; split; reflexivity].
  destruct (search_group1_captured address_pattern _ _ eq_refl E)
    as [g [Hg Cg]].
  rewrite Hg. exists (strip g). split; [reflexivity |].
  split.
  - eapply Nat.le_trans; [apply newlines_strip | apply captures_address, Cg].
  - split; [apply strip_idem |]. split; [|discriminate].
    eapply substring_trans; [apply strip_substring |].
    eapply search_group1_substring; eassumption.
Qed.

Lemma address_from_text_spans_two_lines_witness :
  _extract_property_address two_line_address
  = Ok (VStr (lit "12 oak lane" ++ nl ++ lit "springfield, st 12345")).
Proof.
  destruct (address_from_text_spans_two_lines two_line_address
              (lit "Property Address: 12 Oak Lane" ++ nl
               ++ lit "Springfield, ST 12345 " ++ nl ++ lit "Account 7")
              (or_introl eq_refl) (or_introl eq_refl) eq_refl)
    as [[H _] | [v [H _]]].
  - discriminate H.
  - rewrite H. vm_compute in H. injection H as <-. reflexivity.
Defined.

(* ================================================================== *)
(** * What every rendering looks like *)
(* ================================================================== *)

Lemma Ok_eq (A : Type) (a b : A) : Ok a = Ok b -> a = b.
Proof. congruence. Qed.

Lemma ends_with_newline_app (a b : str) :
  ends_with_newline b -> ends_with_newline (a ++ b).
Proof.
  intros [pre ->]. exists (a ++ pre). rewrite app_assoc. reflexivity.
Qed.

Lemma ends_with_newline_app_opt (a b : str) :
  ends_with_newline a -> b = [] \/ ends_with_newline b ->
  ends_with_newline (a ++ b).
Proof.
  intros Ha [-> | Hb]; [rewrite app_nil_r; exact Ha |].
  apply ends_with_newline_app, Hb.
Qed.

Lemma date_lines_end (items : dict) :
  flat_map date_line items = []
  \/ ends_with_newline (flat_map date_line items).
Proof.
  induction items as [|[k v] items IH]; simpl; [left; reflexivity |].
  destruct (truthy v).
  - right. destruct IH as [-> | IH].
    + rewrite app_nil_r. exists (title (replace_chr "_" (lit " ") k)
                                  ++ lit ": " ++ py_str v).
      rewrite <- !app_assoc. reflexivity.
    + apply ends_with_newline_app, IH.
  - exact IH.
Qed.

Lemma emit_keeps_shape (parsed : pyval) (key label : str)
      (fmt : pyval -> result str) (suffix output out : str) :
  emit parsed key label fmt suffix output = Ok out ->
  (exists body, output = header ++ body) /\ ends_with_newline output ->
  (exists body, out = header ++ body) /\ ends_with_newline out.
Proof.
  unfold emit. intros H [[body ->] Hend].
  destruct (py_get parsed key VNone) as [v|]; [|discriminate H].
  cbn [bind] in H. destruct (truthy v).
  - destruct (fmt v) as [t|]; [|discriminate H]. cbn [bind] in H.
    apply Ok_eq in H; subst out. split.
    + exists (body ++ label ++ t ++ suffix ++ nl).
      rewrite <- app_assoc. reflexivity.
    + exists ((header ++ body) ++ label ++ t ++ suffix).
      rewrite <- !app_assoc. reflexivity.
  - apply Ok_eq in H; subst out. split; [exists body; reflexivity | exact Hend].
Qed.

(** X11. Whatever the record holds, a rendering that is returned starts
    with the heading "=== Mortgage Statement Summary ===" and a blank line,
    and ends with a newline. *)
Theorem rendering_has_heading_and_final_newline (record : dict) (out : str) :
  format_output record = Ok out ->
  (exists body, out = header ++ body) /\ ends_with_newline out.
Proof.
  unfold format_output. cbv zeta.
  set (parsed := dict_get record (lit "parsed_fields") (VDict [])).
  assert (H0 : (exists body, lit "=== Mortgage Statement Summary ==="
                             ++ nl ++ nl = header ++ body)
               /\ ends_with_newline
                    (lit "=== Mortgage Statement Summary ===" ++ nl ++ nl)).
  { split; [exists []; unfold header; rewrite app_nil_r; reflexivity |].
    exists (lit "=== Mortgage Statement Summary ===" ++ nl).
    rewrite <- app_assoc. reflexivity. }
  revert H0.
  generalize (lit "=== Mortgage Statement Summary ===" ++ nl ++ nl).
  intros o0 H0 H.
  destruct (emit parsed (lit "lender_name") _ _ _ o0) as [o1|] eqn:E1;
    [|discriminate H].
  pose proof (emit_keeps_shape _ _ _ _ _ _ _ E1 H0) as H1. cbn [bind] in H.
  destruct (emit parsed (lit "loan_amount") _ _ _ o1) as [o2|] eqn:E2;
    [|discriminate H].
  pose proof (emit_keeps_shape _ _ _ _ _ _ _ E2 H1) as H2. cbn [bind] in H.
  destruct (emit parsed (lit "outstanding_balance") _ _ _ o2) as [o3|] eqn:E3;
    [|discriminate H].
  pose proof (emit_keeps_shape _ _ _ _ _ _ _ E3 H2) as H3. cbn [bind] in H.
  destruct (emit parsed (lit "apr") _ _ _ o3) as [o4|] eqn:E4;
    [|discriminate H].
  pose proof (emit_keeps_shape _ _ _ _ _ _ _ E4 H3) as H4. cbn [bind] in H.
  destruct (emit parsed (lit "loan_terms") _ _ _ o4) as [o5|] eqn:E5;
    [|discriminate H].
  pose proof (emit_keeps_shape _ _ _ _ _ _ _ E5 H4) as H5. cbn [bind] in H.
  destruct (emit parsed (lit "property_address") _ _ _ o5) as [o6|] eqn:E6;
    [|discriminate H].
  pose proof (emit_keeps_shape _ _ _ _ _ _ _ E6 H5) as H6. cbn [bind] in H.
  destruct (emit parsed (lit "payment_amount") _ _ _ o6) as [o7|] eqn:E7;
    [|discriminate H].
  pose proof (emit_keeps_shape _ _ _ _ _ _ _ E7 H6) as H7. cbn [bind] in H.
  clear E1 E2 E3 E4 E5 E6 E7 H0 H1 H2 H3 H4 H5 H6.
  destruct H7 as [[body ->] Hend].
  destruct (py_get parsed (lit "dates") (VDict [])) as [dates|];
    [|discriminate H].
  cbn [bind] in H.
  assert (Hdates :
            forall o8,
              (if truthy dates
               then bind (py_items dates)
                      (fun items =>
                         Ok ((header ++ body) ++ nl
                             ++ lit "=== Important Dates ===" ++ nl
                             ++ flat_map date_line items))
               else Ok (header ++ body)) = Ok o8 ->
              (exists body', o8 = header ++ body') /\ ends_with_newline o8).
  { intros o8 H8. destruct (truthy dates).
    - destruct (py_items dates) as [items|]; [|discriminate H8].
      cbn [bind] in H8. apply Ok_eq in H8; subst o8. split.
      + eexists. rewrite <- app_assoc. reflexivity.
      + rewrite !app_assoc. apply ends_with_newline_app_opt.
        * eexists. reflexivity.
        * apply date_lines_end.
    - apply Ok_eq in H8; subst o8. split; [eexists; reflexivity | exact Hend]. }
  match type of H with
  | bind ?r _ = _ => destruct r as [o8|] eqn:E8; [|discriminate H]
  end.
  destruct (Hdates o8 E8) as [[body' ->] Hend']. cbn [bind] in H.
  destruct (truthy (dict_get record (lit "confidence_score") VNone)).
  - apply Ok_eq in H; subst out. split.
    + eexists. rewrite <- app_assoc. reflexivity.
    + eexists. rewrite !app_assoc. reflexivity.
  - apply Ok_eq in H; subst out. split; [eexists; reflexivity | exact Hend'].
Qed.

Lemma rendering_has_heading_and_final_newline_witness :
  exists out, format_output sample_record = Ok out /\ ends_with_newline out.
Proof.
  destruct (format_output sample_record) as [out|] eqn:E; [|discriminate E].
  exists out. split; [reflexivity |].
  exact (proj2 (rendering_has_heading_and_final_newline sample_record out E)).
Defined.

(* ================================================================== *)
(** * From the response to the rendering *)
(* ================================================================== *)

Lemma format_output_lines (record parsed dates : dict) :
  dict_get record (lit "parsed_fields") (VDict []) = VDict parsed ->
  currency (dict_get parsed (lit "loan_amount") VNone) ->
  currency (dict_get parsed (lit "outstanding_balance") VNone) ->
  currency (dict_get parsed (lit "payment_amount") VNone) ->
  dict_get parsed (lit "dates") (VDict []) = VDict dates ->
  format_output record
  = Ok (header
        ++ field_line (lit "Lender: ")
             (dict_get parsed (lit "lender_name") VNone)
             (py_str (dict_get parsed (lit "lender_name") VNone)) []
        ++ field_line (lit "Original Loan Amount: $")
             (dict_get parsed (lit "loan_amount") VNone)
             (money (dict_get parsed (lit "loan_amount") VNone)) []
        ++ field_line (lit "Outstanding Balance: $")
             (dict_get parsed (lit "outstanding_balance") VNone)
             (money (dict_get parsed (lit "outstanding_balance") VNone)) []
        ++ field_line (lit "APR: ") (dict_get parsed (lit "apr") VNone)
             (py_str (dict_get parsed (lit "apr") VNone)) (lit "%")
        ++ field_line (lit "Loan Terms: ")
             (dict_get parsed (lit "loan_terms") VNone)
             (py_str (dict_get parsed (lit "loan_terms") VNone)) []
        ++ field_line (lit "Property Address: ")
             (dict_get parsed (lit "property_address") VNone)
             (py_str (dict_get parsed (lit "property_address") VNone)) []
        ++ field_line (lit "Payment Amount: $")
             (dict_get parsed (lit "payment_amount") VNone)
             (money (dict_get parsed (lit "payment_amount") VNone)) []
        ++ dates_block dates
        ++ confidence_line
             (dict_get record (lit "confidence_score") VNone)).
Proof.
  intros Hparsed Hloan Hbal Hpay Hdates.
  unfold format_output. rewrite Hparsed. cbv zeta.
  rewrite emit_plain. cbn [bind].
  rewrite (emit_money _ _ _ _ Hloan). cbn [bind].
  rewrite (emit_money _ _ _ _ Hbal). cbn [bind].
  rewrite emit_plain. cbn [bind].
  rewrite emit_plain. cbn [bind].
  rewrite emit_plain. cbn [bind].
  rewrite (emit_money _ _ _ _ Hpay). cbn [bind py_get].
  rewrite Hdates. unfold dates_block, confidence_line, header.
  destruct dates as [|kv dates]; cbn [truthy py_items bind];
    destruct (truthy (dict_get record (lit "confidence_score") VNone));
    repeat rewrite <- app_assoc; try rewrite !app_nil_r; reflexivity.
Qed.

(** The loan amount is one of the amounts of the response. *)
Lemma loan_amount_currency (response : dict) (items fields : list dict) :
  dict_get response (lit "line_items") (VList []) = VList (map VDict items) ->
  dict_get response (lit "custom_fields") (VList [])
  = VList (map VDict fields) ->
  numeric_amounts response items fields ->
  exists v, _extract_loan_amount response = Ok v /\ currency v.
Proof.
  intros Hi Hf [Hitems [Hfields _]].
  unfold _extract_loan_amount. rewrite Hi. cbn [py_iter bind].
  rewrite (scan_records loan_item
             (fun d => mentionsb loan_keywords (description_of d))
             (fun d => dict_get d (lit "total") VNone) items loan_item_dict).
  cbn [bind]. destruct (find _ items) as [item|] eqn:Ei; cbn [option_map].
  - apply find_some in Ei. destruct Ei as [Hin _].
    eexists. split; [reflexivity |].
    exact (proj1 (Forall_forall _ _) Hitems item Hin).
  - rewrite Hf. cbn [py_iter bind].
    rewrite (scan_records loan_field
               (fun d => mentionsb loan_amount_field_keywords (name_of d))
               (fun d => dict_get d (lit "value") VNone) fields
               loan_field_dict).
    cbn [bind]. destruct (find _ fields) as [field|] eqn:Ef; cbn [option_map].
    + apply find_some in Ef. destruct Ef as [Hin Hm].
      eexists. split; [reflexivity |].
      apply (proj1 (Forall_forall _ _) Hfields field Hin).
      apply mentionsb_spec, Hm.
    + eexists. split; [reflexivity | exact I].
Qed.

(** So is the outstanding balance. *)
Lemma outstanding_balance_currency
      (response : dict) (items fields : list dict) :
  well_formed response ->
  dict_get response (lit "line_items") (VList []) = VList (map VDict items) ->
  numeric_amounts response items fields ->
  exists v, _extract_outstanding_balance response = Ok v /\ currency v.
Proof.
  intros Hwf Hi [Hitems [_ Htotal]].
  unfold _extract_outstanding_balance. rewrite Hi. cbn [py_iter bind].
  rewrite (scan_records balance_item
             (fun d => mentionsb balance_keywords (description_of d))
             (fun d => dict_get d (lit "total") VNone) items
             balance_item_dict).
  cbn [bind]. destruct (find _ items) as [item|] eqn:Ei; cbn [option_map].
  - apply find_some in Ei. destruct Ei as [Hin _].
    eexists. split; [reflexivity |].
    exact (proj1 (Forall_forall _ _) Hitems item Hin).
  - cbv zeta. destruct Hwf as [_ [_ [_ [_ [_ Ht]]]]].
    destruct Ht as [-> | Ht]; [eexists; split; [reflexivity | exact I] |].
    destruct (dict_get response (lit "total") VNone) as [| b | z | f | t | l | d];
      try contradiction.
    + destruct (truthy (VInt z));
        [|eexists; split; [reflexivity | exact I]].
      cbn [py_gt_zero bind]. destruct (0 <? z);
        eexists; (split; [reflexivity |]); [exact Htotal | exact I].
    + destruct (truthy (VFloat f));
        [|eexists; split; [reflexivity | exact I]].
      cbn [py_gt_zero bind]. destruct (float_pos f);
        eexists; (split; [reflexivity |]); exact I.
Qed.

(** The dates mapping, key by key. *)
Lemma dates_by_key (response : dict) :
  well_formed response ->
  exists paid originated,
    _extract_dates response
    = Ok [ (lit "statement_date", dict_get response (lit "date") VNone);
           (lit "due_date", dict_get response (lit "due_date") VNone);
           (lit "payment_date", paid);
           (lit "loan_origination_date", originated) ].
Proof.
  intros [[text Ht] _]. unfold _extract_dates. rewrite Ht.
  cbn [py_lower bind].
  destruct (search payment_date_pattern (lower text));
    destruct (search origination_date_pattern (lower text));
    eexists; eexists; reflexivity.
Qed.

Lemma date_line_labelled (key label : str) (v : pyval) :
  title (replace_chr "_" (lit " ") key) ++ lit ": " = label ->
  date_line (key, v) = dated_line label v.
Proof.
  intros <-. unfold date_line, dated_line, field_line.
  destruct (truthy v); [|reflexivity].
  rewrite <- !app_assoc. reflexivity.
Qed.

(** X12. On a response of the documented shape whose amounts are numbers,
    assembling the record and rendering it never raises, and the text is
    fixed by the values the six extractors return: the heading, then one
    line per truthy field in the order lender (the vendor name), original
    loan amount, outstanding balance, APR, loan terms, property address,
    payment amount (the document total); then, always, a blank line and
    the heading "=== Important Dates ===" followed by the truthy dates in
    the order Statement Date (the response's date), Due Date (its
    due_date), Payment Date, Loan Origination Date; then the confidence
    score of the response. *)
Theorem response_rendering (response : dict) (items fields : list dict) :
  well_formed response ->
  dict_get response (lit "line_items") (VList []) = VList (map VDict items) ->
  dict_get response (lit "custom_fields") (VList [])
  = VList (map VDict fields) ->
  numeric_amounts response items fields ->
  exists lender loan balance apr terms address paid originated,
    py_get (dict_get response (lit "vendor") (VDict [])) (lit "name") VNone
    = Ok lender
    /\ _extract_loan_amount response = Ok loan
    /\ _extract_outstanding_balance response = Ok balance
    /\ _extract_apr response = Ok apr
    /\ _extract_loan_terms response = Ok terms
    /\ _extract_property_address response = Ok address
    /\ _extract_dates response
       = Ok [ (lit "statement_date", dict_get response (lit "date") VNone);
              (lit "due_date", dict_get response (lit "due_date") VNone);
              (lit "payment_date", paid);
              (lit "loan_origination_date", originated) ]
    /\ bind (_extract_mortgage_fields response) format_output
       = Ok (rendering lender loan balance apr terms address
               (dict_get response (lit "total") VNone)
               (dict_get response (lit "date") VNone)
               (dict_get response (lit "due_date") VNone)
               paid originated
               (dict_get response (lit "confidence") VNone)).
Proof.
  intros Hwf Hi Hf Hnum.
  destruct (loan_amount_currency _ _ _ Hi Hf Hnum) as [loan [E1 C1]].
  destruct (outstanding_balance_currency _ _ _ Hwf Hi Hnum)
    as [balance [E2 C2]].
  destruct (apr_returns _ Hwf) as [apr E3].
  destruct (loan_terms_returns _ Hwf) as [terms E4].
  destruct (property_address_returns _ Hwf) as [address E5].
  destruct (dates_by_key _ Hwf) as [paid [originated E6]].
  assert (C3 : currency (dict_get response (lit "total") VNone))
    by exact (proj2 (proj2 Hnum)).
  destruct Hwf as [_ [_ [_ [[vendor Hv] _]]]].
  exists (dict_get vendor (lit "name") VNone), loan, balance, apr, terms,
    address, paid, originated.
  repeat (split; [first [assumption | rewrite Hv; reflexivity] |]).
  unfold _extract_mortgage_fields.
  rewrite E1, E2, E3, E4, E5, E6, Hv. cbn [bind py_get].
  match goal with
  | |- format_output ?r = _ =>
      rewrite (format_output_lines r
                 [ (lit "loan_amount", loan);
                   (lit "outstanding_balance", balance);
                   (lit "apr", apr);
                   (lit "loan_terms", terms);
                   (lit "property_address", address);
                   (lit "dates",
                    VDict [ (lit "statement_date",
                             dict_get response (lit "date") VNone);
                            (lit "due_date",
                             dict_get response (lit "due_date") VNone);
                            (lit "payment_date", paid);
                            (lit "loan_origination_date", originated) ]);
                   (lit "payment_amount",
                    dict_get response (lit "total") VNone);
                   (lit "lender_name", dict_get vendor (lit "name") VNone) ]
                 [ (lit "statement_date",
                    dict_get response (lit "date") VNone);
                   (lit "due_date", dict_get response (lit "due_date") VNone);
                   (lit "payment_date", paid);
                   (lit "loan_origination_date", originated) ]
                 eq_refl C1 C2 C3 eq_refl)
  end.
  unfold rendering, dates_block.
  cbn [flat_map].
  rewrite (date_line_labelled (lit "statement_date") (lit "Statement Date: ")
             _ eq_refl).
  rewrite (date_line_labelled (lit "due_date") (lit "Due Date: ") _ eq_refl).
  rewrite (date_line_labelled (lit "payment_date") (lit "Payment Date: ")
             _ eq_refl).
  rewrite (date_line_labelled (lit "loan_origination_date")
             (lit "Loan Origination Date: ") _ eq_refl).
  rewrite app_nil_r. rewrite <- !app_assoc. reflexivity.
Qed.

Lemma response_rendering_witness :
  exists out,
    bind (_extract_mortgage_fields full_statement) format_output = Ok out.
Proof.
  assert (Hwf : well_formed full_statement).
  { split; [eexists; reflexivity |].
    split; [exists [ item "Principal Balance"
                          [(lit "total", VFloat f_287450_23)] ];
            reflexivity |].
    split; [exists []; reflexivity |].
    split; [eexists; reflexivity |].
    split; [right; exists []; reflexivity | right; exact I]. }
  assert (Hnum : numeric_amounts full_statement
                   [ item "Principal Balance"
                          [(lit "total", VFloat f_287450_23)] ] []).
  { repeat split; repeat constructor. }
  destruct (response_rendering full_statement
              [ item "Principal Balance"
                     [(lit "total", VFloat f_287450_23)] ] []
              Hwf eq_refl eq_refl Hnum)
    as [lender [loan [balance [apr [terms [address [paid [originated H]]]]]]]].
  eexists. exact (proj2 (proj2 (proj2 (proj2 (proj2 (proj2 (proj2 H))))))).
Defined.

(* ================================================================== *)
(** * The entry points *)
(* ================================================================== *)

Lemma parse_of_answer (response : dict) :
  well_formed response ->
  exists record,
    lift (_extract_mortgage_fields response) = Returned record
    /\ dict_get record (lit "raw_response") VNone = VDict response.
Proof.
  intros Hwf. unfold _extract_mortgage_fields.
  destruct (loan_amount_returns _ Hwf) as [v1 ->].
  destruct (outstanding_balance_returns _ Hwf) as [v2 ->].
  destruct (apr_returns _ Hwf) as [v3 ->].
  destruct (loan_terms_returns _ Hwf) as [v4 ->].
  destruct (property_address_returns _ Hwf) as [v5 ->].
  destruct (dates_returns _ Hwf) as [dates [-> _]].
  destruct Hwf as [_ [_ [_ [[vendor Hv] _]]]]. rewrite Hv.
  cbn [bind py_get lift]. eexists. split; reflexivity.
Qed.



(** X14. Parsing a statement from a URL never looks at the files: it
    makes exactly one request, process_document_url of the URL with the
    same three categories, passes a failure of the service on, and on an
    answer of the documented shape returns the record assembled from it. *)
Theorem url_makes_one_request (w : world) (file_url : str) :
  let request :=
    process_document_url file_url
      [lit "mortgage"; lit "financial"; lit "bank statement"] in
  let (result, w') := parse_mortgage_statement_from_url file_url w in
  requests w' = requests w ++ [request]
  /\ path_exists w' = path_exists w /\ client w' = client w
  /\ match client w request with
     | inr reason => result = Failed (ClientError reason)
     | inl response =>
         result = lift (_extract_mortgage_fields response)
         /\ (well_formed response ->
             exists record,
               result = Returned record
               /\ dict_get record (lit "raw_response") VNone
                  = VDict response)
     end.
Proof.
  intros request. unfold parse_mortgage_statement_from_url, call, categories.
  cbv beta iota. fold request.
  destruct (client w request) as [response | reason]; cbn [requests
    path_exists client]; do 3 (split; [reflexivity |]).
  - split; [reflexivity |]. apply parse_of_answer.
  - reflexivity.
Qed.

Lemma url_makes_one_request_witness :
  exists record w',
    parse_mortgage_statement_from_url (lit "https://example.com/s.pdf")
      sample_world
    = (Returned record, w')
    /\ length (requests w') = 1%nat.
Proof.
  pose proof (url_makes_one_request sample_world
                (lit "https://example.com/s.pdf")) as H.
  cbv zeta in H.
  destruct (parse_mortgage_statement_from_url
              (lit "https://example.com/s.pdf") sample_world)
    as [result w'] eqn:E.
  destruct H as [Hr [_ [_ H]]].
  change (client sample_world _) with (@inl dict str full_statement) in H.
  destruct H as [-> _].
  eexists. exists w'. split; [reflexivity |]. rewrite Hr. reflexivity.
Defined.

(* ================================================================== *)
(** * The credentials *)
(* ================================================================== *)

Lemma truthy_getenv (env : str -> option str) (name : str) :
  truthy (getenv env name) = true <->
  exists value, env name = Some value /\ value <> [].
Proof.
  unfold getenv. destruct (env name) as [[|c value]|]; simpl; split.
  - discriminate.
  - intros [v [E Hv]]. injection E as <-. contradiction Hv. reflexivity.
  - intros _. eexists. split; [reflexivity | discriminate].
  - reflexivity.
  - discriminate.
  - intros [v [E _]]. discriminate E.
Qed.

(** X15. The credentials are returned exactly when each of the four
    variables VERYFI_CLIENT_ID, VERYFI_CLIENT_SECRET, VERYFI_USERNAME and
    VERYFI_API_KEY is set to a non-empty string, and they are then these
    four values in this order; in every other environment, one with a
    variable set to the empty string included, ValueError is raised. *)
Theorem credentials_need_four_non_empty_values (env : str -> option str) :
  (Forall (fun name => exists value, env name = Some value /\ value <> [])
          credential_names
   /\ load_credentials env
      = Ok (getenv env (lit "VERYFI_CLIENT_ID"),
            getenv env (lit "VERYFI_CLIENT_SECRET"),
            getenv env (lit "VERYFI_USERNAME"),
            getenv env (lit "VERYFI_API_KEY")))
  \/ (Exists (fun name => env name = None \/ env name = Some [])
             credential_names
      /\ load_credentials env = Raise ValueError).
Proof.
  unfold load_credentials, credential_names. cbv zeta. cbn [forallb].
  destruct (truthy (getenv env (lit "VERYFI_CLIENT_ID"))) eqn:E1;
    [apply truthy_getenv in E1 |];
    (destruct (truthy (getenv env (lit "VERYFI_CLIENT_SECRET"))) eqn:E2;
     [apply truthy_getenv in E2 |]);
    (destruct (truthy (getenv env (lit "VERYFI_USERNAME"))) eqn:E3;
     [apply truthy_getenv in E3 |]);
    (destruct (truthy (getenv env (lit "VERYFI_API_KEY"))) eqn:E4;
     [apply truthy_getenv in E4 |]);
    cbn [andb negb];
    try (left; split; [repeat constructor; assumption | reflexivity]);
    right; (split; [|reflexivity]).
  all: assert (Hmiss : forall name,
                  truthy (getenv env name) = false ->
                  env name = None \/ env name = Some [])
    by (intros name; unfold getenv;
        destruct (env name) as [[|c value]|]; simpl;
        [auto | discriminate | auto]).
  all: first
         [ apply Hmiss in E1; apply Exists_cons_hd; exact E1
         | apply Hmiss in E2; apply Exists_cons_tl, Exists_cons_hd; exact E2
         | apply Hmiss in E3;
           apply Exists_cons_tl, Exists_cons_tl, Exists_cons_hd; exact E3
         | apply Hmiss in E4;
           apply Exists_cons_tl, Exists_cons_tl, Exists_cons_tl,
                 Exists_cons_hd; exact E4 ].
Qed.

Lemma credentials_need_four_non_empty_values_witness :
  load_credentials empty_username = Raise ValueError
  /\ exists values, load_credentials complete_environment = Ok values.
Proof.
  split.
  - destruct (credentials_need_four_non_empty_values empty_username)
      as [[_ H] | [_ H]]; [discriminate H | exact H].
  - destruct (credentials_need_four_non_empty_values complete_environment)
      as [[_ H] | [_ H]]; [eexists; exact H | discriminate H].
Defined.
